(** * Nominatim API datatypes ([nominatim/api/types.py])

    A shallow embedding of the value types of the Nominatim API front end:
    the place references [PlaceID] and [OsmID], the geographic [Point] with
    its EWKB decoder and GeoJSON printer, the [GeometryFormat] flag
    enumeration and the [LookupDetails] record.

    Conventions of the embedding:
    - a Python [bytes] object is a [list byte];
    - a Python [int] is a [Z];
    - a Python [float] is a C double, kept as its IEEE-754 binary64 bit
      pattern (an integer below [2^64]);
    - a Python [str] is a [string];
    - an operation that may raise returns a [result]. *)

From Stdlib Require Import ZArith List String Ascii Bool Lia QArith.
From Stdlib Require Import Qpower Qabs.
From Stdlib Require Import DecimalString.
From Stdlib Require Import Floats.SpecFloat.
From coqutil Require Import Byte Word.LittleEndianList.
Import ListNotations.

Local Open Scope string_scope.
Local Open Scope Z_scope.

(** ** Exceptions *)

(** The exceptions that the modelled code can raise.  [ValueError] is raised
    by the module itself, [StructError] by [struct.unpack], [IndexError] by
    subscripting and [AttributeError] by assignment to a read-only
    attribute. *)
Inductive exn : Type :=
| ValueError (msg : string)
| StructError (msg : string)
| IndexError (msg : string)
| AttributeError (msg : string).

Inductive result (A : Type) : Type :=
| Return (a : A)
| Raise (e : exn).

Arguments Return {A} a.
Arguments Raise {A} e.

Definition bind {A B : Type} (c : result A) (k : A -> result B) : result B :=
  match c with
  | Return a => k a
  | Raise e => Raise e
  end.

Notation "x <- c ;; k" := (bind c (fun x => k))
  (at level 61, c at next level, right associativity).
Notation "' p <- c ;; k" := (bind c (fun x => match x with p => k end))
  (at level 61, p pattern, c at next level, right associativity).

(** ** Floats *)

(** A Python float, as the 64 bits of its IEEE-754 binary64 encoding. *)
Record float : Type := Float { float_bits : Z }.

Definition float_sign (x : float) : bool := Z.testbit (float_bits x) 63.
Definition float_exponent (x : float) : Z :=
  Z.land (Z.shiftr (float_bits x) 52) 2047.
Definition float_fraction (x : float) : Z :=
  Z.land (float_bits x) (Z.ones 52).

(** The value denoted by the bit pattern, in the Standard Library's
    specification of IEEE-754 numbers: [S754_finite s m e] is
    [(-1)^s * m * 2^e]. *)
Definition float_value (x : float) : spec_float :=
  let s := float_sign x in
  let e := float_exponent x in
  let f := float_fraction x in
  if e =? 2047 then
    if f =? 0 then S754_infinity s else S754_nan
  else if e =? 0 then
    if f =? 0 then S754_zero s else S754_finite s (Z.to_pos f) (-1074)
  else S754_finite s (Z.to_pos (f + 2 ^ 52)) (e - 1075).

Definition is_finite (x : float) : bool := negb (float_exponent x =? 2047).
Definition is_nan (x : float) : bool :=
  (float_exponent x =? 2047) && negb (float_fraction x =? 0).
Definition is_inf (x : float) : bool :=
  (float_exponent x =? 2047) && (float_fraction x =? 0).

(** The rational number a finite float stands for. *)
Definition float_Q (x : float) : option Q :=
  match float_value x with
  | S754_zero _ => Some 0%Q
  | S754_finite s m e =>
      let a := inject_Z (if s then Z.neg m else Z.pos m) in
      Some (Qred (if 0 <=? e then a * inject_Z (2 ^ e)
                  else a / inject_Z (2 ^ (- e))))%Q
  | _ => None
  end.

(** The floats 1.0, -3.0, 20.0 and 30.0 and a quiet NaN, by their bits. *)
Definition f_1_0 : float := Float 0x3FF0000000000000.
Definition f_m3_0 : float := Float 0xC008000000000000.
Definition f_20_0 : float := Float 0x4034000000000000.
Definition f_30_0 : float := Float 0x403E000000000000.
Definition f_nan : float := Float 0x7FF8000000000000.

(** ** [struct.unpack] for the formats ['>iidd'] and ['<iidd'] *)

Inductive byteorder : Type := BigEndian | LittleEndian.

(** The unsigned integer held by a byte string in the given byte order. *)
Definition uint_of_bytes (o : byteorder) (bs : list byte) : Z :=
  match o with
  | LittleEndian => le_combine bs
  | BigEndian => le_combine (rev bs)
  end.

(** Format character [i]: a signed 32-bit integer in two's complement. *)
Definition unpack_i (o : byteorder) (bs : list byte) : Z :=
  let u := uint_of_bytes o bs in
  if u <? 2 ^ 31 then u else u - 2 ^ 32.

(** Format character [d]: an IEEE-754 binary64 number. *)
Definition unpack_d (o : byteorder) (bs : list byte) : float :=
  Float (uint_of_bytes o bs).

(** Python's slice [b[i:j]]. *)
Definition slice (i j : nat) (bs : list byte) : list byte :=
  firstn (j - i) (skipn i bs).

(** [unpack(fmt, buffer)] with [fmt] one of ['>iidd'], ['<iidd']: standard
    sizes, no padding, 4 + 4 + 8 + 8 = 24 bytes; a buffer of another size
    raises [struct.error]. *)
Definition unpack_iidd (o : byteorder) (buf : list byte)
  : result (Z * Z * float * float) :=
  if Nat.eqb (List.length buf) 24 then
    Return (unpack_i o (slice 0 4 buf),
            unpack_i o (slice 4 8 buf),
            unpack_d o (slice 8 16 buf),
            unpack_d o (slice 16 24 buf))
  else Raise (StructError "unpack requires a buffer of 24 bytes").

(** ** [Point] *)

(** [class Point(NamedTuple)]: a geographic point in WGS84 projection. *)
Record Point : Type := mkPoint { x : float; y : float }.

(** Property [lat]: the latitude of the point. *)
Definition lat (self : Point) : float := y self.

(** Property [lon]: the longitude of the point. *)
Definition lon (self : Point) : float := x self.

(** [wkb[0]]: subscripting raises [IndexError] on an empty byte string. *)
Definition bytes_head (wkb : list byte) : result Z :=
  match wkb with
  | b :: _ => Return (byte.unsigned b)
  | [] => Raise (IndexError "index out of range")
  end.

(** [Point.from_wkb]: create a point from EWKB as returned from the
    database. *)
Definition from_wkb (wkb : list byte) : result Point :=
  if negb (Nat.eqb (List.length wkb) 25) then
    Raise (ValueError "Point wkb has unexpected length")
  else
    b0 <- bytes_head wkb ;;
    '(gtype, srid, x, y) <-
      (if b0 =? 0 then unpack_iidd BigEndian (skipn 1 wkb)
       else if b0 =? 1 then unpack_iidd LittleEndian (skipn 1 wkb)
       else Raise (ValueError "WKB has unknown endian value.")) ;;
    if negb (gtype =? 0x20000001) then
      Raise (ValueError "WKB must be a point geometry.")
    else if negb (srid =? 4326) then
      Raise (ValueError "Only WGS84 WKB supported.")
    else Return (mkPoint x y).

(** ** The text form of a float

    The f-string of [to_geojson] formats a float with an empty format
    specification, which is [float.__repr__]: the shortest decimal string
    that reads back as the same double, printed in positional notation when
    the decimal exponent is between -4 and 16 and in exponent notation
    otherwise.  The definitions follow CPython's [_Py_dg_dtoa] in mode 0
    (digit generation) and [format_float_short] with format code ['r'] and
    the flag [Py_DTSF_ADD_DOT_0] (layout). *)

Definition is_Lt (c : comparison) : bool :=
  match c with Lt => true | _ => false end.
Definition is_Eq (c : comparison) : bool :=
  match c with Eq => true | _ => false end.
Definition is_Gt (c : comparison) : bool :=
  match c with Gt => true | _ => false end.

(** The largest [k] with [d * 10^k <= n], for [0 < d <= n]. *)
Fixpoint log10_up (fuel : nat) (n d k : Z) : Z :=
  match fuel with
  | O => k
  | S fuel' => if 10 * d <=? n then log10_up fuel' n (10 * d) (k + 1) else k
  end.

(** The largest [k <= 0] with [d <= n * 10^(-k)], for [0 < n]. *)
Fixpoint log10_down (fuel : nat) (n d k : Z) : Z :=
  match fuel with
  | O => k
  | S fuel' => if n <? d then log10_down fuel' (10 * n) d (k - 1) else k
  end.

(** [floor (log10 (n / d))] for positive [n] and [d]. *)
Definition floor_log10 (fuel : nat) (n d : Z) : Z :=
  if d <=? n then log10_up fuel n d 0 else log10_down fuel n d 0.

(** The digit loop of [_Py_dg_dtoa] (mode 0, [leftright]).  [b / den] is
    what is left of the number, [mlo / den] and [mhi / den] are half the
    distances to the neighbouring doubles; [s] holds the digits produced so
    far, last digit first.  The boolean of the result tells that the last
    digit is a 9 that must still be rounded up ([round_9_up]). *)
Fixpoint dtoa_digits (fuel : nat) (even : bool) (b den mlo mhi : Z)
    (s : list Z) : list Z * bool :=
  match fuel with
  | O => (s, false)
  | S fuel' =>
      let dig := b / den in
      let b := b mod den in
      let j := b ?= mlo in
      let delta := den - mhi in
      let j1 := if delta <? 0 then Gt else b ?= delta in
      if is_Eq j1 && even then
        if dig =? 9 then (9 :: s, true)
        else ((if is_Gt j then dig + 1 else dig) :: s, false)
      else if is_Lt j || (is_Eq j && even) then
        if b =? 0 then (dig :: s, false)
        else if is_Gt j1 then
          let j1' := 2 * b ?= den in
          if is_Gt j1' || (is_Eq j1' && Z.odd dig) then
            if dig =? 9 then (9 :: s, true) else ((dig + 1) :: s, false)
          else (dig :: s, false)
        else (dig :: s, false)
      else if is_Gt j1 then
        if dig =? 9 then (9 :: s, true) else ((dig + 1) :: s, false)
      else dtoa_digits fuel' even (10 * b) den (10 * mlo) (10 * mhi) (dig :: s)
  end.

(** Label [roundoff]: strip the trailing nines and add one to the digit
    before them; when every digit is a nine the result is the single digit
    1 and the decimal exponent grows by one. *)
Fixpoint roundoff (s : list Z) : list Z * bool :=
  match s with
  | [] => ([1], true)
  | d :: s' => if d =? 9 then roundoff s' else ((d + 1) :: s', false)
  end.

(** The integer mantissa of a finite double with fraction field [f] and
    biased exponent [be], and its binary exponent: the value is
    [m * 2^e]. *)
Definition mantissa (f be : Z) : Z := if be =? 0 then f else f + 2 ^ 52.
Definition binary_exponent (be : Z) : Z :=
  if be =? 0 then -1074 else be - 1075.

(** The initial big integers of [_Py_dg_dtoa]: [b / den] is the number,
    [mlo / den] and [mhi / den] half the distance to the double below and
    above.  The distance below is halved once more when the number is a
    power of two that is not the smallest normal one ([spec_case]). *)
Definition dtoa_init (f be : Z) : Z * Z * Z * Z :=
  let m := mantissa f be in
  let e := binary_exponent be in
  let spec_case := (f =? 0) && (2 <=? be) in
  let sh := if spec_case then 2 else 1 in
  let b := if 0 <=? e then m * 2 ^ (e + sh) else m * 2 ^ sh in
  let den := if 0 <=? e then 2 ^ sh else 2 ^ (sh - e) in
  let mlo := if 0 <=? e then 2 ^ e else 1 in
  let mhi := if spec_case then 2 * mlo else mlo in
  (b, den, mlo, mhi).

(** Scaling by the power of ten [10^k], so that [1 <= b / den < 10]. *)
Definition dtoa_scale (k : Z) (i : Z * Z * Z * Z) : Z * Z * Z * Z :=
  let '(b, den, mlo, mhi) := i in
  if 0 <=? k then (b, den * 10 ^ k, mlo, mhi)
  else (b * 10 ^ (- k), den, mlo * 10 ^ (- k), mhi * 10 ^ (- k)).

(** [_Py_dg_dtoa(d, 0, ...)] for a positive finite double with fraction
    field [f] and biased exponent [be]: the digits, first digit first, and
    [decpt], the position of the decimal point.  [fuel_k] bounds the search
    for the decimal exponent and [fuel_d] the number of digits. *)
Definition dtoa_finite (fuel_k fuel_d : nat) (f be : Z) : list Z * Z :=
  let '(b0, den0, _, _) := dtoa_init f be in
  let k := floor_log10 fuel_k b0 den0 in
  let '(b, den, mlo, mhi) := dtoa_scale k (dtoa_init f be) in
  let '(s, r9) :=
    dtoa_digits fuel_d (Z.even (mantissa f be)) b den mlo mhi [] in
  if r9 then
    let '(s', carry) := roundoff s in
    (rev s', if carry then k + 2 else k + 1)
  else (rev s, k + 1).

Definition digit_char (d : Z) : ascii := ascii_of_N (Z.to_N (48 + d)).

Definition string_of_digits (ds : list Z) : string :=
  string_of_list_ascii (map digit_char ds).

Definition zeros (n : Z) : string :=
  string_of_list_ascii (repeat "0"%char (Z.to_nat n)).

(** C's [sprintf("%+.02d", n)]: a sign and at least two digits. *)
Definition sprintf_exp (n : Z) : string :=
  let a := NilZero.string_of_uint (N.to_uint (Z.to_N (Z.abs n))) in
  ((if n <? 0 then "-" else "+")
     ++ (if Z.abs n <? 10 then "0" else "") ++ a).

(** [strncpy(p, digits + i, n)] on the digit list. *)
Definition digits_sub (ds : list Z) (i n : Z) : string :=
  string_of_digits (firstn (Z.to_nat n) (skipn (Z.to_nat i) ds)).

(** [if (p[-1] == '.') p--]: delete a trailing decimal point. *)
Definition strip_trailing_dot (p : string) : string :=
  match rev (list_ascii_of_string p) with
  | c :: q => if (c =? ".")%char then string_of_list_ascii (rev q) else p
  | [] => p
  end.

(** The layout of [format_float_short] for format code ['r'] with
    [Py_DTSF_ADD_DOT_0], for a finite number given by its sign, digits and
    decimal point position. *)
Definition format_float_short (sign : bool) (digits : list Z) (decpt : Z)
  : string :=
  let digits_len := Z.of_nat (List.length digits) in
  let use_exp := (decpt <=? -4) || (16 <? decpt) in
  let exp := decpt - 1 in
  let decpt := if use_exp then 1 else decpt in
  let vdigits_start := if decpt <=? 0 then decpt - 1 else 0 in
  let vdigits_end :=
    if negb use_exp then Z.max digits_len (decpt + 1)
    else Z.max digits_len decpt in
  let p := if sign then "-" else "" in
  let p :=
    (if decpt <=? 0
     then p ++ zeros (decpt - vdigits_start) ++ "." ++ zeros (0 - decpt)
     else p ++ zeros (0 - vdigits_start)) in
  let p :=
    (if (0 <? decpt) && (decpt <=? digits_len)
     then p ++ digits_sub digits 0 decpt ++ "."
            ++ digits_sub digits decpt (digits_len - decpt)
     else p ++ digits_sub digits 0 digits_len) in
  let p :=
    (if digits_len <? decpt
     then p ++ zeros (decpt - digits_len) ++ "." ++ zeros (vdigits_end - decpt)
     else p ++ zeros (vdigits_end - digits_len)) in
  let p := strip_trailing_dot p in
  if use_exp then (p ++ "e" ++ sprintf_exp exp) else p.

(** [float.__repr__] with the two loops of the digit generation bounded by
    [fuel_k] and [fuel_d] rounds. *)
Definition float_repr_fuel (fuel_k fuel_d : nat) (x : float) : string :=
  let be := float_exponent x in
  let f := float_fraction x in
  if be =? 2047 then
    if f =? 0 then (if float_sign x then "-inf" else "inf") else "nan"
  else if (be =? 0) && (f =? 0) then
    format_float_short (float_sign x) [0] 1
  else
    let '(digits, decpt) := dtoa_finite fuel_k fuel_d f be in
    format_float_short (float_sign x) digits decpt.

(** [float.__repr__], which is also [str] and the empty format
    specification for floats.  The decimal exponents of binary64 lie in
    [-324, 308] and no double needs more than 17 digits, so that 400 and 20
    rounds are enough for the two loops ([float_repr_fuel_enough]). *)
Definition float_repr (x : float) : string := float_repr_fuel 400 20 x.

(** The double quote character. *)
Definition dquote : string := String "034"%char EmptyString.

(** [Point.to_geojson]: return the point in GeoJSON format.  The f-string
    is a fixed template with the two replacement fields [self.x] and
    [self.y]. *)
Definition to_geojson (self : Point) : string :=
  "{" ++ dquote ++ "type" ++ dquote ++ ": " ++ dquote ++ "Point" ++ dquote
    ++ "," ++ dquote ++ "coordinates" ++ dquote ++ ": ["
    ++ float_repr (x self) ++ ", " ++ float_repr (y self) ++ "]}".

(** The text of [to_geojson] around its two replacement fields. *)
Definition geojson_template (sx sy : string) : string :=
  "{" ++ dquote ++ "type" ++ dquote ++ ": " ++ dquote ++ "Point" ++ dquote
    ++ "," ++ dquote ++ "coordinates" ++ dquote ++ ": ["
    ++ sx ++ ", " ++ sy ++ "]}".

(** ** Dataclasses and attribute assignment *)

(** The options of the [@dataclasses.dataclass] decorator that matter
    here. *)
Record dataclass_params : Type := { frozen : bool }.

(** [@dataclasses.dataclass] without arguments, as all three dataclasses of
    the module are declared: [frozen] is [False]. *)
Definition dataclass_default : dataclass_params := {| frozen := false |}.

(** [obj.name = value] on an instance of a dataclass: a frozen dataclass
    raises [FrozenInstanceError], a subclass of [AttributeError]; any other
    rebinds the attribute, and nothing else runs. *)
Definition dataclass_setattr {A : Type} (params : dataclass_params)
    (update : A -> A) (self : A) : result A :=
  if frozen params then Raise (AttributeError "cannot assign to field")
  else Return (update self).

(** ** [PlaceID] and [OsmID] *)

(** [class PlaceID]: reference an object by Nominatim's internal ID. *)
Record PlaceID : Type := mkPlaceID { place_id : Z }.

Definition PlaceID_params : dataclass_params := dataclass_default.

(** [class OsmID]: reference by the OSM ID and potentially the basic
    category. *)
Record OsmID : Type :=
  mkOsmID { osm_type : string; osm_id : Z; osm_class : option string }.

Definition OsmID_params : dataclass_params := dataclass_default.

(** [s in ('N', 'W', 'R')]. *)
Definition in_NWR (s : string) : bool :=
  existsb (String.eqb s) ["N"; "W"; "R"].

(** [OsmID.__post_init__]. *)
Definition OsmID_post_init (self : OsmID) : result unit :=
  if negb (in_NWR (osm_type self)) then
    Raise (ValueError ("Illegal OSM type '" ++ osm_type self
                         ++ "'. Must be one of N, W, R."))
  else Return tt.

(** [OsmID(osm_type, osm_id, osm_class)]: the generated [__init__] binds
    the fields and then calls [__post_init__].  An omitted [osm_class] is
    [None]. *)
Definition OsmID_init (osm_type : string) (osm_id : Z)
    (osm_class : option string) : result OsmID :=
  let self := mkOsmID osm_type osm_id osm_class in
  _ <- OsmID_post_init self ;;
  Return self.

(** The assignments a caller can make to the fields of an [OsmID]. *)
Inductive OsmID_assign : Type :=
| Set_osm_type (v : string)
| Set_osm_id (v : Z)
| Set_osm_class (v : option string).

Definition OsmID_update (a : OsmID_assign) (self : OsmID) : OsmID :=
  match a with
  | Set_osm_type v => mkOsmID v (osm_id self) (osm_class self)
  | Set_osm_id v => mkOsmID (osm_type self) v (osm_class self)
  | Set_osm_class v => mkOsmID (osm_type self) (osm_id self) v
  end.

Definition OsmID_setattr (self : OsmID) (a : OsmID_assign) : result OsmID :=
  dataclass_setattr OsmID_params (OsmID_update a) self.

Definition PlaceID_setattr (self : PlaceID) (v : Z) : result PlaceID :=
  dataclass_setattr PlaceID_params (fun _ => mkPlaceID v) self.

(** A sequence of assignments, stopping at the first that raises. *)
Fixpoint OsmID_assigns (self : OsmID) (l : list OsmID_assign)
  : result OsmID :=
  match l with
  | [] => Return self
  | a :: l' => self' <- OsmID_setattr self a ;; OsmID_assigns self' l'
  end.

(** The [OsmID] objects a program can hold: built by the constructor and
    then changed by any number of attribute assignments. *)
Inductive OsmID_reachable : OsmID -> Prop :=
| reach_init t i c o :
    OsmID_init t i c = Return o -> OsmID_reachable o
| reach_setattr o a o' :
    OsmID_reachable o -> OsmID_setattr o a = Return o' -> OsmID_reachable o'.

(** An assignment that cannot break the check of [__post_init__]: it
    leaves [osm_type] alone or binds it to one of the three codes. *)
Definition keeps_osm_type (a : OsmID_assign) : bool :=
  match a with
  | Set_osm_type v => in_NWR v
  | _ => true
  end.

(** Assignment to a field of a [NamedTuple] instance such as [Point]: the
    fields are read-only properties of a tuple. *)
Definition Point_setattr (self : Point) (update : Point -> Point)
  : result Point :=
  Raise (AttributeError "can't set attribute").

(** ** [GeometryFormat] *)

(** [int.bit_length]. *)
Definition bit_length (v : Z) : Z := if v =? 0 then 0 else Z.log2 v + 1.

(** [enum.auto()] in an [enum.Flag]: the first power of two above the
    highest value defined so far. *)
Definition flag_auto (last_values : list Z) : Z :=
  2 ^ bit_length (fold_right Z.max 0 last_values).

(** [class GeometryFormat(enum.Flag)]: a member is known by its value. *)
Record GeometryFormat : Type := mkGeometryFormat { flag_value : Z }.

Module GeometryFormat.
Definition NONE : GeometryFormat := mkGeometryFormat 0.
Definition GEOJSON : GeometryFormat :=
  mkGeometryFormat (flag_auto [0]).
Definition KML : GeometryFormat :=
  mkGeometryFormat (flag_auto [0; flag_value GEOJSON]).
Definition SVG : GeometryFormat :=
  mkGeometryFormat (flag_auto [0; flag_value GEOJSON; flag_value KML]).
Definition TEXT : GeometryFormat :=
  mkGeometryFormat
    (flag_auto [0; flag_value GEOJSON; flag_value KML; flag_value SVG]).
End GeometryFormat.


(** [a | b] on flags. *)
Definition flag_or (a b : GeometryFormat) : GeometryFormat :=
  mkGeometryFormat (Z.lor (flag_value a) (flag_value b)).

(** [a in b] on flags: every bit of [a] is set in [b]. *)
Definition flag_contains (b a : GeometryFormat) : bool :=
  Z.land (flag_value a) (flag_value b) =? flag_value a.

(** Assignment to the value of an enumeration member: the attribute is
    read-only. *)
Definition GeometryFormat_setattr (self : GeometryFormat) (v : Z)
  : result GeometryFormat :=
  Raise (AttributeError "cannot set attribute 'value'").

(** ** [LookupDetails] *)

(** [class LookupDetails]: collection of parameters that define the amount
    of details returned with a search result. *)
Record LookupDetails : Type := mkLookupDetails {
  geometry_output : GeometryFormat;
  address_details : bool;
  linked_places : bool;
  parented_places : bool;
  keywords : bool
}.

Definition LookupDetails_params : dataclass_params := dataclass_default.

(** A keyword argument that may be left out, with its default. *)
Definition default {A : Type} (d : A) (arg : option A) : A :=
  match arg with Some v => v | None => d end.

(** [LookupDetails(...)]: the generated [__init__]; every parameter has a
    default and there is no [__post_init__]. *)
Definition LookupDetails_init (geometry_output : option GeometryFormat)
    (address_details linked_places parented_places keywords : option bool)
  : result LookupDetails :=
  Return (mkLookupDetails
            (default GeometryFormat.NONE geometry_output)
            (default false address_details)
            (default false linked_places)
            (default false parented_places)
            (default false keywords)).

Definition LookupDetails_setattr (self : LookupDetails)
    (update : LookupDetails -> LookupDetails) : result LookupDetails :=
  dataclass_setattr LookupDetails_params update self.

(** ** The EWKB point layout *)

(** Byte 0 of the buffer for each byte order. *)
Definition endian_marker (o : byteorder) : Z :=
  match o with BigEndian => 0 | LittleEndian => 1 end.

(** The byte order that byte 0 of a buffer selects, if any. *)
Definition wkb_byteorder (wkb : list byte) : option byteorder :=
  match wkb with
  | b :: _ =>
      if byte.unsigned b =? 0 then Some BigEndian
      else if byte.unsigned b =? 1 then Some LittleEndian
      else None
  | [] => None
  end.

(** The fields of the 25-byte layout, read as unsigned integers: the
    geometry type in bytes 1 to 4, the spatial reference identifier in
    bytes 5 to 8, the bit patterns of x in bytes 9 to 16 and of y in bytes
    17 to 24. *)
Definition wkb_gtype (o : byteorder) (wkb : list byte) : Z :=
  uint_of_bytes o (slice 1 5 wkb).
Definition wkb_srid (o : byteorder) (wkb : list byte) : Z :=
  uint_of_bytes o (slice 5 9 wkb).
Definition wkb_x (o : byteorder) (wkb : list byte) : float :=
  Float (uint_of_bytes o (slice 9 17 wkb)).
Definition wkb_y (o : byteorder) (wkb : list byte) : float :=
  Float (uint_of_bytes o (slice 17 25 wkb)).

(** The [n] bytes of an unsigned integer in the given byte order. *)
Definition bytes_of_uint (o : byteorder) (n : nat) (v : Z) : list byte :=
  match o with
  | LittleEndian => le_split n v
  | BigEndian => rev (le_split n v)
  end.

(** Modelled from the spec: the encoder of EWKB points belongs to the
    storage layer and is not among the sources; this is the layout of
    section 4.2: the endianness marker, the 4-byte geometry type, the 4-byte
    spatial reference identifier and the two 8-byte doubles, without
    padding. *)
Definition ewkb_point (o : byteorder) (gtype srid : Z) (x y : float)
  : list byte :=
  (byte.of_Z (endian_marker o)
     :: bytes_of_uint o 4 gtype ++ bytes_of_uint o 4 srid
     ++ bytes_of_uint o 8 (float_bits x)
     ++ bytes_of_uint o 8 (float_bits y))%list.

(** The reasons for which a buffer is not a WGS84 EWKB point. *)
Inductive wkb_defect : Type :=
| UnexpectedLength
| UnknownEndian
| NotAPoint
| UnsupportedProjection.

(** The first defect of a buffer, in the order of the checks of the layout:
    length, marker, geometry type, spatial reference. *)
Definition wkb_check (wkb : list byte) : option wkb_defect :=
  if negb (Nat.eqb (List.length wkb) 25) then Some UnexpectedLength
  else
    match wkb_byteorder wkb with
    | None => Some UnknownEndian
    | Some o =>
        if negb (wkb_gtype o wkb =? 0x20000001) then Some NotAPoint
        else if negb (wkb_srid o wkb =? 4326) then Some UnsupportedProjection
        else None
    end.

(** The message of the [ValueError] raised for each defect. *)
Definition defect_message (d : wkb_defect) : string :=
  match d with
  | UnexpectedLength => "Point wkb has unexpected length"
  | UnknownEndian => "WKB has unknown endian value."
  | NotAPoint => "WKB must be a point geometry."
  | UnsupportedProjection => "Only WGS84 WKB supported."
  end.

(** ** JSON texts (RFC 8259)

    A recogniser for the JSON grammar, used to judge the output of
    [to_geojson].  A parse either accepts a prefix of the input and returns
    what follows it, or rejects the input, or gives up for lack of fuel. *)

Inductive parse : Type :=
| Accept (rest : list ascii)
| Reject
| OutOfFuel.

Definition is_ws (c : ascii) : bool :=
  let n := N_of_ascii c in
  ((n =? 32) || (n =? 9) || (n =? 10) || (n =? 13))%N.

Definition is_digit (c : ascii) : bool :=
  let n := N_of_ascii c in ((48 <=? n) && (n <=? 57))%N.

Definition is_hex (c : ascii) : bool :=
  let n := N_of_ascii c in
  (((48 <=? n) && (n <=? 57)) || ((65 <=? n) && (n <=? 70))
   || ((97 <=? n) && (n <=? 102)))%N.

Fixpoint skip_ws (s : list ascii) : list ascii :=
  match s with
  | c :: t => if is_ws c then skip_ws t else s
  | [] => []
  end.

Fixpoint skip_digits (s : list ascii) : list ascii :=
  match s with
  | c :: t => if is_digit c then skip_digits t else s
  | [] => []
  end.

(** exp = ("e" / "E") [ "+" / "-" ] 1*DIGIT, optional. *)
Definition json_exp (s : list ascii) : parse :=
  match s with
  | c :: t =>
      if (c =? "e")%char || (c =? "E")%char then
        let t :=
          match t with
          | c' :: u => if (c' =? "+")%char || (c' =? "-")%char then u else t
          | [] => t
          end in
        match t with
        | d :: u => if is_digit d then Accept (skip_digits u) else Reject
        | [] => Reject
        end
      else Accept s
  | [] => Accept s
  end.

(** frac = "." 1*DIGIT, optional, followed by exp. *)
Definition json_frac (s : list ascii) : parse :=
  match s with
  | c :: t =>
      if (c =? ".")%char then
        match t with
        | d :: u => if is_digit d then json_exp (skip_digits u) else Reject
        | [] => Reject
        end
      else json_exp s
  | [] => Accept s
  end.

(** number = [ "-" ] int [ frac ] [ exp ], int = "0" / digit1-9 *DIGIT. *)
Definition json_number (s : list ascii) : parse :=
  let s :=
    match s with
    | c :: t => if (c =? "-")%char then t else s
    | [] => s
    end in
  match s with
  | c :: t =>
      if (c =? "0")%char then json_frac t
      else if is_digit c then json_frac (skip_digits t)
      else Reject
  | [] => Reject
  end.

(** The characters of a string after its opening quotation mark. *)
Fixpoint json_chars (s : list ascii) : parse :=
  match s with
  | [] => Reject
  | c :: t =>
      if (c =? "034")%char then Accept t
      else if (N_of_ascii c <? 32)%N then Reject
      else if (c =? "\")%char then
        match t with
        | e :: u =>
            if (e =? "u")%char then
              match u with
              | h1 :: h2 :: h3 :: h4 :: v =>
                  if is_hex h1 && is_hex h2 && is_hex h3 && is_hex h4
                  then json_chars v else Reject
              | _ => Reject
              end
            else if existsb (Ascii.eqb e)
                      ["034"; "\"; "/"; "b"; "f"; "n"; "r"; "t"]%char
            then json_chars u
            else Reject
        | [] => Reject
        end
      else json_chars t
  end.

(** A literal name: the input must start with it. *)
Fixpoint json_literal (name s : list ascii) : parse :=
  match name, s with
  | [], _ => Accept s
  | a :: name', c :: t => if (a =? c)%char then json_literal name' t else Reject
  | _ :: _, [] => Reject
  end.

(** value = false / null / true / object / array / number / string, with
    the elements of an array and the members of an object.  Insignificant
    whitespace is allowed around the structural characters. *)
Fixpoint json_value (fuel : nat) (s : list ascii) : parse :=
  match fuel with
  | O => OutOfFuel
  | S fuel' =>
      match skip_ws s with
      | [] => Reject
      | c :: t =>
          if (c =? "{")%char then
            match skip_ws t with
            | c' :: u =>
                if (c' =? "}")%char then Accept u
                else json_members fuel' (c' :: u)
            | [] => Reject
            end
          else if (c =? "[")%char then
            match skip_ws t with
            | c' :: u =>
                if (c' =? "]")%char then Accept u
                else json_elements fuel' (c' :: u)
            | [] => Reject
            end
          else if (c =? "034")%char then json_chars t
          else if (c =? "t")%char then
            json_literal (list_ascii_of_string "true") (c :: t)
          else if (c =? "f")%char then
            json_literal (list_ascii_of_string "false") (c :: t)
          else if (c =? "n")%char then
            json_literal (list_ascii_of_string "null") (c :: t)
          else json_number (c :: t)
      end
  end

with json_elements (fuel : nat) (s : list ascii) : parse :=
  match fuel with
  | O => OutOfFuel
  | S fuel' =>
      match json_value fuel' s with
      | Accept r =>
          match skip_ws r with
          | c :: t =>
              if (c =? ",")%char then json_elements fuel' t
              else if (c =? "]")%char then Accept t
              else Reject
          | [] => Reject
          end
      | r => r
      end
  end

with json_members (fuel : nat) (s : list ascii) : parse :=
  match fuel with
  | O => OutOfFuel
  | S fuel' =>
      match skip_ws s with
      | c :: t =>
          if (c =? "034")%char then
            match json_chars t with
            | Accept r =>
                match skip_ws r with
                | c' :: u =>
                    if (c' =? ":")%char then
                      match json_value fuel' u with
                      | Accept r' =>
                          match skip_ws r' with
                          | c'' :: v =>
                              if (c'' =? ",")%char then json_members fuel' v
                              else if (c'' =? "}")%char then Accept v
                              else Reject
                          | [] => Reject
                          end
                      | r' => r'
                      end
                    else Reject
                | [] => Reject
                end
            | r => r
            end
          else Reject
      | [] => Reject
      end
  end.

(** JSON-text = ws value ws, on a whole string. *)
Definition json_text (s : string) : parse :=
  match json_value (2 * String.length s + 2) (list_ascii_of_string s) with
  | Accept r => match skip_ws r with [] => Accept [] | _ => Reject end
  | r => r
  end.

(** ** Decimal numbers as JSON numbers *)

(** A decimal digit. *)
Definition is_dig (d : Z) : Prop := 0 <= d <= 9.

(** What may follow a number: not a character that would continue it. *)
Definition terminates (rest : list ascii) : Prop :=
  match rest with
  | [] => True
  | c :: _ =>
      is_digit c = false /\ (c =? ".")%char = false /\
      (c =? "e")%char = false /\ (c =? "E")%char = false
  end.

(** A list of characters that [json_number] accepts as a whole, whatever
    follows it. *)
Definition is_json_number (l : list ascii) : Prop :=
  (exists c l', l = c :: l' /\ (is_digit c = true \/ c = "-"%char)) /\
  forall rest, terminates rest -> json_number (l ++ rest) = Accept rest.

(** The characters of the sign of a number. *)
Definition sign_chars (sign : bool) : list ascii :=
  if sign then ["-"%char] else [].

(** What follows the integer part of a printed float: a fraction, or an
    optional fraction and an exponent. *)
Definition frac_shape (t : list ascii) : Prop :=
  (exists F, F <> [] /\ forallb is_digit F = true /\ t = "."%char :: F) \/
  (exists F s E,
      forallb is_digit F = true /\ (s = "+"%char \/ s = "-"%char) /\
      E <> [] /\ forallb is_digit E = true /\
      t = (match F with [] => [] | _ => "."%char :: F end
             ++ "e"%char :: s :: E)%list).

(** The shape of a printed finite float: a sign, an integer part without
    leading zero, and a fraction or exponent. *)
Definition number_shape (l : list ascii) : Prop :=
  exists sign c cs t,
    l = (sign_chars sign ++ c :: cs ++ t)%list /\
    is_digit c = true /\ (c = "0"%char -> cs = []) /\
    forallb is_digit cs = true /\ frac_shape t.

(** ** Further definitions for the properties *)

(** The first nine bytes of a WGS84 EWKB point: the endianness marker, the
    geometry type 0x20000001 and the spatial reference identifier 4326, in
    big-endian and in little-endian order. *)
Definition be_header : list byte :=
  map byte.of_Z [0x00; 0x20; 0x00; 0x00; 0x01; 0x00; 0x00; 0x10; 0xE6].
Definition le_header : list byte :=
  map byte.of_Z [0x01; 0x01; 0x00; 0x00; 0x20; 0xE6; 0x10; 0x00; 0x00].

(** The named members of [GeometryFormat] other than [NONE]. *)
Definition flag_members : list GeometryFormat :=
  [GeometryFormat.GEOJSON; GeometryFormat.KML; GeometryFormat.SVG;
   GeometryFormat.TEXT].


(** [number_shape] for a given sign. *)
Definition signed_number_shape (sign : bool) (l : list ascii) : Prop :=
  exists c cs t,
    l = (sign_chars sign ++ c :: cs ++ t)%list /\
    is_digit c = true /\ (c = "0"%char -> cs = []) /\
    forallb is_digit cs = true /\ frac_shape t.






(** * Properties *)

(** ** Accessors *)

Lemma float_literals :
  float_Q f_1_0 = Some 1%Q /\ float_Q f_m3_0 = Some (-3)%Q /\
  float_Q f_20_0 = Some 20%Q /\ float_Q f_30_0 = Some 30%Q /\
  float_value f_nan = S754_nan.
Proof. repeat split; vm_compute; reflexivity. Qed.

(** C9: the latitude of a point is its [y] and the longitude its [x]; both
    are computed from the two stored fields, which determine the point; in
    particular [Point(x=30.0, y=20.0)] has latitude 20.0 and longitude
    30.0. *)
Theorem lat_lon_accessors :
  (forall a b : float, lat (mkPoint a b) = b /\ lon (mkPoint a b) = a) /\
  (forall p : Point, p = mkPoint (lon p) (lat p)) /\
  lat (mkPoint f_30_0 f_20_0) = f_20_0 /\
  lon (mkPoint f_30_0 f_20_0) = f_30_0 /\
  float_Q (lat (mkPoint f_30_0 f_20_0)) = Some 20%Q /\
  float_Q (lon (mkPoint f_30_0 f_20_0)) = Some 30%Q.
Proof.
  split; [intros a b; split; reflexivity|].
  split; [intros [a b]; reflexivity|].
  repeat split; vm_compute; reflexivity.
Qed.

(** ** [LookupDetails] *)

(** C8: [LookupDetails()] returns, without raising, the record with
    [geometry_output = NONE] and the four booleans false; whatever
    arguments are given the constructor returns, each field holding its
    argument or, independently of the others, its default. *)
Theorem LookupDetails_defaults :
  LookupDetails_init None None None None None
    = Return (mkLookupDetails GeometryFormat.NONE false false false false) /\
  (forall g a l p k, exists d,
      LookupDetails_init g a l p k = Return d /\
      geometry_output d = default GeometryFormat.NONE g /\
      address_details d = default false a /\
      linked_places d = default false l /\
      parented_places d = default false p /\
      keywords d = default false k) /\
  (forall g a l p k,
      LookupDetails_init (Some g) (Some a) (Some l) (Some p) (Some k)
        = Return (mkLookupDetails g a l p k)).
Proof.
  split; [reflexivity|].
  split; [|reflexivity].
  intros g a l p k. eexists. split; [reflexivity|].
  repeat split.
Qed.

(** ** [GeometryFormat] *)

Lemma flag_values :
  flag_value GeometryFormat.NONE = 0 /\
  flag_value GeometryFormat.GEOJSON = 1 /\
  flag_value GeometryFormat.KML = 2 /\
  flag_value GeometryFormat.SVG = 4 /\
  flag_value GeometryFormat.TEXT = 8.
Proof. repeat split; reflexivity. Qed.


(** C7: the union of flags is associative and idempotent, [NONE] is its
    identity, and [GEOJSON | KML] contains [GEOJSON] and [KML] and neither
    [SVG] nor [TEXT]. *)
Theorem flag_or_algebra :
  (forall a b c, flag_or a (flag_or b c) = flag_or (flag_or a b) c) /\
  (forall f, flag_or f f = f) /\
  (forall v, flag_or GeometryFormat.NONE v = v) /\
  (forall v, flag_or v GeometryFormat.NONE = v) /\
  let gk := flag_or GeometryFormat.GEOJSON GeometryFormat.KML in
  flag_contains gk GeometryFormat.GEOJSON = true /\
  flag_contains gk GeometryFormat.KML = true /\
  flag_contains gk GeometryFormat.SVG = false /\
  flag_contains gk GeometryFormat.TEXT = false.
Proof.
  unfold flag_or.
  split; [intros a b c; cbn [flag_value]; now rewrite Z.lor_assoc|].
  split; [intros [v]; cbn [flag_value]; now rewrite Z.lor_diag|].
  split; [intros [v]; reflexivity|].
  split; [intros [v]; cbn [flag_value]; now rewrite Z.lor_0_r|].
  repeat split.
Qed.

(** ** [OsmID] *)

Lemma in_NWR_spec (s : string) :
  in_NWR s = true <-> s = "N" \/ s = "W" \/ s = "R".
Proof.
  unfold in_NWR. cbn [existsb].
  rewrite !orb_true_iff, !String.eqb_eq. intuition discriminate.
Qed.

(** C4: [OsmID(s, i, c)] returns the object exactly when [s] is ["N"],
    ["W"] or ["R"]; for every other string the constructor itself raises a
    [ValueError] whose message quotes [s]. *)
Theorem OsmID_init_spec (s : string) (i : Z) (c : option string) :
  (s = "N" \/ s = "W" \/ s = "R" <->
     OsmID_init s i c = Return (mkOsmID s i c)) /\
  (~ (s = "N" \/ s = "W" \/ s = "R") <->
     OsmID_init s i c =
       Raise (ValueError ("Illegal OSM type '" ++ s
                            ++ "'. Must be one of N, W, R."))).
Proof.
  unfold OsmID_init, OsmID_post_init. cbn [osm_type].
  pose proof (in_NWR_spec s) as H.
  destruct (in_NWR s); cbn [negb bind].
  - split; split; try reflexivity; try discriminate.
    + intros _. apply H. reflexivity.
    + intros Hn. exfalso. apply Hn, H. reflexivity.
  - split; split; try reflexivity; try discriminate.
    + intros Hs. apply H in Hs. discriminate.
    + intros _ Hs. apply H in Hs. discriminate.
Qed.

(** ** [Point.from_wkb] *)

Section Decoder.

Lemma uint_of_bytes_bound (o : byteorder) (bs : list byte) :
  0 <= uint_of_bytes o bs < 2 ^ (8 * Z.of_nat (List.length bs)).
Proof.
  destruct o; cbn [uint_of_bytes].
  - rewrite <- (length_rev bs). apply le_combine_bound.
  - apply le_combine_bound.
Qed.

(** Reading four bytes as a signed integer or as an unsigned one makes no
    difference for the comparison with a constant below [2^31]. *)
Lemma unpack_i_eqb (o : byteorder) (bs : list byte) (c : Z) :
  List.length bs = 4%nat -> 0 <= c < 2 ^ 31 ->
  (unpack_i o bs =? c) = (uint_of_bytes o bs =? c).
Proof.
  intros Hl Hc. unfold unpack_i.
  pose proof (uint_of_bytes_bound o bs) as Hb. rewrite Hl in Hb.
  change (2 ^ (8 * Z.of_nat 4)) with (2 ^ 32) in Hb.
  destruct (Z.ltb_spec (uint_of_bytes o bs) (2 ^ 31)) as [Hlt|Hge];
    [reflexivity|].
  transitivity false; [|symmetry]; apply Z.eqb_neq; lia.
Qed.

Lemma length_slice (i j : nat) (bs : list byte) :
  (j <= List.length bs)%nat -> List.length (slice i j bs) = (j - i)%nat.
Proof.
  intros H. unfold slice. rewrite length_firstn, length_skipn. lia.
Qed.

(** The decoder follows the checks of the layout: it raises the
    [ValueError] of the first defect, and returns the point of the two
    doubles when there is none.  In particular [struct.unpack] and the
    subscript never raise. *)
Lemma from_wkb_check (wkb : list byte) :
  match wkb_check wkb with
  | Some d => from_wkb wkb = Raise (ValueError (defect_message d))
  | None =>
      exists o, wkb_byteorder wkb = Some o /\
                from_wkb wkb = Return (mkPoint (wkb_x o wkb) (wkb_y o wkb))
  end.
Proof.
  unfold wkb_check, from_wkb.
  destruct (Nat.eqb_spec (List.length wkb) 25) as [Hl|Hl]; cbn [negb];
    [|reflexivity].
  destruct wkb as [|b0 rest]; [discriminate|].
  assert (Hr : List.length rest = 24%nat) by (cbn in Hl; lia).
  cbn [bytes_head bind wkb_byteorder skipn].
  assert (Hu : forall o,
             unpack_iidd o rest =
               Return (unpack_i o (slice 0 4 rest),
                       unpack_i o (slice 4 8 rest),
                       wkb_x o (b0 :: rest), wkb_y o (b0 :: rest))).
  { intros o. unfold unpack_iidd. rewrite Hr. reflexivity. }
  assert (Hg : forall o,
             (unpack_i o (slice 0 4 rest) =? 0x20000001)
             = (wkb_gtype o (b0 :: rest) =? 0x20000001)).
  { intros o. apply unpack_i_eqb; [|lia].
    rewrite length_slice; [reflexivity|lia]. }
  assert (Hs : forall o,
             (unpack_i o (slice 4 8 rest) =? 4326)
             = (wkb_srid o (b0 :: rest) =? 4326)).
  { intros o. apply unpack_i_eqb; [|lia].
    rewrite length_slice; [reflexivity|lia]. }
  assert (Ho : forall o,
    match
      (if negb (wkb_gtype o (b0 :: rest) =? 0x20000001)
       then Some NotAPoint
       else if negb (wkb_srid o (b0 :: rest) =? 4326)
            then Some UnsupportedProjection else None)
    with
    | Some d =>
        (' (gtype, srid, x, y) <- unpack_iidd o rest ;;
         if negb (gtype =? 0x20000001)
         then Raise (ValueError "WKB must be a point geometry.")
         else if negb (srid =? 4326)
              then Raise (ValueError "Only WGS84 WKB supported.")
              else Return (mkPoint x y))
        = Raise (ValueError (defect_message d))
    | None =>
        exists o', Some o = Some o' /\
        (' (gtype, srid, x, y) <- unpack_iidd o rest ;;
         if negb (gtype =? 0x20000001)
         then Raise (ValueError "WKB must be a point geometry.")
         else if negb (srid =? 4326)
              then Raise (ValueError "Only WGS84 WKB supported.")
              else Return (mkPoint x y))
        = Return (mkPoint (wkb_x o' (b0 :: rest)) (wkb_y o' (b0 :: rest)))
    end).
  { intros o. rewrite Hu. cbn [bind]. rewrite Hg, Hs.
    destruct (wkb_gtype o (b0 :: rest) =? 0x20000001); cbn [negb];
      [|reflexivity].
    destruct (wkb_srid o (b0 :: rest) =? 4326); cbn [negb];
      [|reflexivity].
    exists o. split; reflexivity. }
  destruct (byte.unsigned b0 =? 0); [exact (Ho BigEndian)|].
  destruct (byte.unsigned b0 =? 1); [exact (Ho LittleEndian)|].
  reflexivity.
Qed.

End Decoder.

(** A buffer without defect decodes to the two doubles of its layout. *)
Lemma from_wkb_well_formed (wkb : list byte) (o : byteorder) :
  List.length wkb = 25%nat ->
  option_map byte.unsigned (hd_error wkb) = Some (endian_marker o) ->
  wkb_gtype o wkb = 0x20000001 ->
  wkb_srid o wkb = 4326 ->
  from_wkb wkb = Return (mkPoint (wkb_x o wkb) (wkb_y o wkb)).
Proof.
  intros Hl Hm Hg Hs.
  pose proof (from_wkb_check wkb) as H. unfold wkb_check in H.
  rewrite Hl in H. cbn [Nat.eqb negb] in H.
  assert (Ho : wkb_byteorder wkb = Some o).
  { destruct wkb as [|b0 rest]; [discriminate|].
    cbn in Hm. injection Hm as Hm. cbn [wkb_byteorder]. rewrite Hm.
    destruct o; reflexivity. }
  rewrite Ho, Hg, Hs in H. cbn in H.
  destruct H as [o' [Heq H]]. injection Heq as <-. exact H.
Qed.

(** C1: a 25-byte buffer whose byte 0 is the marker of a byte order, and
    whose geometry type and spatial reference identifier, read in that
    order, are 0x20000001 and 4326, decodes to the point of the two doubles
    that follow, x first and y second. *)
Theorem from_wkb_decodes (wkb : list byte) (o : byteorder) :
  List.length wkb = 25%nat ->
  option_map byte.unsigned (hd_error wkb) = Some (endian_marker o) ->
  wkb_gtype o wkb = 0x20000001 ->
  wkb_srid o wkb = 4326 ->
  from_wkb wkb = Return (mkPoint (wkb_x o wkb) (wkb_y o wkb)) /\
  float_bits (wkb_x o wkb) = uint_of_bytes o (slice 9 17 wkb) /\
  float_bits (wkb_y o wkb) = uint_of_bytes o (slice 17 25 wkb).
Proof.
  intros Hl Hm Hg Hs.
  split; [apply from_wkb_well_formed; assumption|split; reflexivity].
Qed.

Lemma from_wkb_decodes_witness :
  from_wkb (ewkb_point LittleEndian 0x20000001 4326 f_1_0 f_m3_0)
    = Return (mkPoint f_1_0 f_m3_0).
Proof.
  pose proof (from_wkb_decodes
                (ewkb_point LittleEndian 0x20000001 4326 f_1_0 f_m3_0)
                LittleEndian eq_refl eq_refl eq_refl eq_refl) as [H _].
  exact H.
Defined.

Lemma wkb_check_defect (wkb : list byte) (d : wkb_defect) :
  wkb_check wkb = Some d <->
  from_wkb wkb = Raise (ValueError (defect_message d)).
Proof.
  pose proof (from_wkb_check wkb) as H.
  destruct (wkb_check wkb) as [d'|].
  - rewrite H. split.
    + intros [= ->]. reflexivity.
    + intros [= E]. destruct d, d'; try reflexivity; discriminate.
  - destruct H as [o [_ H]]. rewrite H. split; discriminate.
Qed.

Lemma wkb_check_length (wkb : list byte) :
  wkb_check wkb = Some UnexpectedLength <-> List.length wkb <> 25%nat.
Proof.
  unfold wkb_check.
  destruct (Nat.eqb_spec (List.length wkb) 25) as [Hl|Hl]; cbn [negb].
  - split; [|intros H; exfalso; exact (H Hl)].
    destruct (wkb_byteorder wkb) as [o|]; [|discriminate].
    destruct (wkb_gtype o wkb =? 0x20000001); cbn [negb]; [|discriminate].
    destruct (wkb_srid o wkb =? 4326); discriminate.
  - split; [intros _; exact Hl|reflexivity].
Qed.

Lemma wkb_check_endian (wkb : list byte) :
  wkb_check wkb = Some UnknownEndian <->
  List.length wkb = 25%nat /\ wkb_byteorder wkb = None.
Proof.
  unfold wkb_check.
  destruct (Nat.eqb_spec (List.length wkb) 25) as [Hl|Hl]; cbn [negb].
  - destruct (wkb_byteorder wkb) as [o|].
    + split; [|intros [_ H]; discriminate].
      destruct (wkb_gtype o wkb =? 0x20000001); cbn [negb]; [|discriminate].
      destruct (wkb_srid o wkb =? 4326); discriminate.
    + split; [intros _; split; [exact Hl|reflexivity]|reflexivity].
  - split; [discriminate|intros [H _]; exfalso; exact (Hl H)].
Qed.

Lemma wkb_check_gtype (wkb : list byte) :
  wkb_check wkb = Some NotAPoint <->
  List.length wkb = 25%nat /\
  exists o, wkb_byteorder wkb = Some o /\ wkb_gtype o wkb <> 0x20000001.
Proof.
  unfold wkb_check.
  destruct (Nat.eqb_spec (List.length wkb) 25) as [Hl|Hl]; cbn [negb].
  - destruct (wkb_byteorder wkb) as [o|].
    + destruct (Z.eqb_spec (wkb_gtype o wkb) 0x20000001) as [Hg|Hg];
        cbn [negb].
      * split.
        -- destruct (wkb_srid o wkb =? 4326); discriminate.
        -- intros [_ [o' [[= <-] Hn]]]. exfalso. exact (Hn Hg).
      * split; [intros _; split; [exact Hl|]|reflexivity].
        exists o. split; [reflexivity|exact Hg].
    + split; [discriminate|intros [_ [o [H _]]]; discriminate].
  - split; [discriminate|intros [H _]; exfalso; exact (Hl H)].
Qed.

Lemma wkb_check_srid (wkb : list byte) :
  wkb_check wkb = Some UnsupportedProjection <->
  List.length wkb = 25%nat /\
  exists o, wkb_byteorder wkb = Some o /\
            wkb_gtype o wkb = 0x20000001 /\ wkb_srid o wkb <> 4326.
Proof.
  unfold wkb_check.
  destruct (Nat.eqb_spec (List.length wkb) 25) as [Hl|Hl]; cbn [negb].
  - destruct (wkb_byteorder wkb) as [o|].
    + destruct (Z.eqb_spec (wkb_gtype o wkb) 0x20000001) as [Hg|Hg];
        cbn [negb].
      * destruct (Z.eqb_spec (wkb_srid o wkb) 4326) as [Hs|Hs]; cbn [negb].
        -- split; [discriminate|].
           intros [_ [o' [[= <-] [_ Hn]]]]. exfalso. exact (Hn Hs).
        -- split; [intros _; split; [exact Hl|]|reflexivity].
           exists o. repeat split; assumption.
      * split; [discriminate|].
        intros [_ [o' [[= <-] [Hn _]]]]. exfalso. exact (Hg Hn).
    + split; [discriminate|intros [_ [o [H _]]]; discriminate].
  - split; [discriminate|intros [H _]; exfalso; exact (Hl H)].
Qed.

(** C2: [from_wkb] raises exactly on the buffers with a defect; what it
    raises is a [ValueError], with the message of the first defect: wrong
    length, unknown endianness marker, geometry type other than 0x20000001,
    spatial reference other than 4326.  A buffer with the ordinary point
    code 1, or with the identifier 3857, is refused.  The call either
    returns a point or raises; it never does both. *)
Theorem from_wkb_errors (wkb : list byte) :
  ((exists e, from_wkb wkb = Raise e) <->
     (List.length wkb <> 25%nat \/ wkb_byteorder wkb = None \/
      exists o, wkb_byteorder wkb = Some o /\
                (wkb_gtype o wkb <> 0x20000001 \/ wkb_srid o wkb <> 4326))) /\
  (forall e, from_wkb wkb = Raise e ->
     exists d, wkb_check wkb = Some d /\ e = ValueError (defect_message d)) /\
  (from_wkb wkb = Raise (ValueError "Point wkb has unexpected length") <->
     List.length wkb <> 25%nat) /\
  (from_wkb wkb = Raise (ValueError "WKB has unknown endian value.") <->
     List.length wkb = 25%nat /\ wkb_byteorder wkb = None) /\
  (from_wkb wkb = Raise (ValueError "WKB must be a point geometry.") <->
     List.length wkb = 25%nat /\
     exists o, wkb_byteorder wkb = Some o /\ wkb_gtype o wkb <> 0x20000001) /\
  (from_wkb wkb = Raise (ValueError "Only WGS84 WKB supported.") <->
     List.length wkb = 25%nat /\
     exists o, wkb_byteorder wkb = Some o /\
               wkb_gtype o wkb = 0x20000001 /\ wkb_srid o wkb <> 4326) /\
  ((exists p, from_wkb wkb = Return p) \/
   (exists msg, from_wkb wkb = Raise (ValueError msg))) /\
  (forall o,
      from_wkb (ewkb_point o 0x00000001 4326 f_1_0 f_m3_0)
        = Raise (ValueError "WKB must be a point geometry.") /\
      from_wkb (ewkb_point o 0x20000001 3857 f_1_0 f_m3_0)
        = Raise (ValueError "Only WGS84 WKB supported.")).
Proof.
  assert (Hraise : forall e, from_wkb wkb = Raise e ->
            exists d, wkb_check wkb = Some d /\
                      e = ValueError (defect_message d)).
  { intros e He. pose proof (from_wkb_check wkb) as H.
    destruct (wkb_check wkb) as [d|].
    - exists d. split; [reflexivity|]. congruence.
    - destruct H as [o [_ H]]. congruence. }
  split; [|split; [exact Hraise|]].
  - split.
    + intros [e He]. destruct (Hraise e He) as [d [Hd _]].
      destruct d.
      * left. apply wkb_check_length, Hd.
      * right. left. apply wkb_check_endian, Hd.
      * right. right. apply wkb_check_gtype in Hd as [_ [o [Ho Hg]]].
        exists o. split; [exact Ho|left; exact Hg].
      * right. right. apply wkb_check_srid in Hd as [_ [o [Ho [_ Hs]]]].
        exists o. split; [exact Ho|right; exact Hs].
    + intros Hinv. pose proof (from_wkb_check wkb) as H.
      destruct (wkb_check wkb) as [d|] eqn:Hc; [eexists; exact H|].
      exfalso. unfold wkb_check in Hc.
      destruct (Nat.eqb_spec (List.length wkb) 25) as [Hl|Hl]; cbn [negb] in Hc;
        [|discriminate].
      destruct (wkb_byteorder wkb) as [o|]; [|discriminate].
      destruct (Z.eqb_spec (wkb_gtype o wkb) 0x20000001) as [Hg|Hg];
        cbn [negb] in Hc; [|discriminate].
      destruct (Z.eqb_spec (wkb_srid o wkb) 4326) as [Hs|Hs];
        cbn [negb] in Hc; [|discriminate].
      destruct Hinv as [Hn|[Hn|[o' [[= <-] [Hn|Hn]]]]];
        [exact (Hn Hl)|discriminate|exact (Hn Hg)|exact (Hn Hs)].
  - split; [rewrite <- wkb_check_length;
            symmetry; apply (wkb_check_defect wkb UnexpectedLength)|].
    split; [rewrite <- wkb_check_endian;
            symmetry; apply (wkb_check_defect wkb UnknownEndian)|].
    split; [rewrite <- wkb_check_gtype;
            symmetry; apply (wkb_check_defect wkb NotAPoint)|].
    split; [rewrite <- wkb_check_srid;
            symmetry; apply (wkb_check_defect wkb UnsupportedProjection)|].
    split.
    + pose proof (from_wkb_check wkb) as H.
      destruct (wkb_check wkb) as [d|].
      * right. eexists. exact H.
      * left. destruct H as [o [_ H]]. eexists. exact H.
    + intros []; split; vm_compute; reflexivity.
Qed.

(** *** Round trip through the layout *)

Lemma uint_of_bytes_of_uint (o : byteorder) (n : nat) (v : Z) :
  uint_of_bytes o (bytes_of_uint o n v) = v mod 2 ^ (Z.of_nat n * 8).
Proof.
  destruct o; cbn [uint_of_bytes bytes_of_uint].
  - rewrite rev_involutive. apply le_combine_split.
  - apply le_combine_split.
Qed.

Lemma ewkb_point_fields (o : byteorder) (g s : Z) (a b : float) :
  List.length (ewkb_point o g s a b) = 25%nat /\
  option_map byte.unsigned (hd_error (ewkb_point o g s a b))
    = Some (endian_marker o) /\
  slice 1 5 (ewkb_point o g s a b) = bytes_of_uint o 4 g /\
  slice 5 9 (ewkb_point o g s a b) = bytes_of_uint o 4 s /\
  slice 9 17 (ewkb_point o g s a b) = bytes_of_uint o 8 (float_bits a) /\
  slice 17 25 (ewkb_point o g s a b) = bytes_of_uint o 8 (float_bits b).
Proof.
  destruct o; repeat split; reflexivity.
Qed.

(** Decoding the encoding of a point gives the point back, in both byte
    orders and for all doubles, NaNs with their payload included. *)
Lemma from_wkb_ewkb_point (o : byteorder) (a b : float) :
  0 <= float_bits a < 2 ^ 64 -> 0 <= float_bits b < 2 ^ 64 ->
  from_wkb (ewkb_point o 0x20000001 4326 a b) = Return (mkPoint a b).
Proof.
  intros Ha Hb.
  destruct (ewkb_point_fields o 0x20000001 4326 a b)
    as (Hl & Hm & Hg & Hs & Hx & Hy).
  rewrite (from_wkb_well_formed _ o Hl Hm).
  - unfold wkb_x, wkb_y.
    rewrite Hx, Hy, !uint_of_bytes_of_uint.
    change (2 ^ (Z.of_nat 8 * 8)) with (2 ^ 64).
    rewrite !Z.mod_small by assumption.
    destruct a, b; reflexivity.
  - unfold wkb_gtype. rewrite Hg, uint_of_bytes_of_uint. reflexivity.
  - unfold wkb_srid. rewrite Hs, uint_of_bytes_of_uint. reflexivity.
Qed.

(** C3: the big-endian encoding of the point (1.0, -3.0) with geometry type
    0x20000001 and SRID 4326 is the expected 25 bytes and decodes to
    [Point(x=1.0, y=-3.0)]; the little-endian encoding decodes to the same
    point. *)
Theorem from_wkb_roundtrip_example :
  ewkb_point BigEndian 0x20000001 4326 f_1_0 f_m3_0
    = map byte.of_Z [0x00; 0x20; 0x00; 0x00; 0x01; 0x00; 0x00; 0x10; 0xE6;
                     0x3F; 0xF0; 0x00; 0x00; 0x00; 0x00; 0x00; 0x00;
                     0xC0; 0x08; 0x00; 0x00; 0x00; 0x00; 0x00; 0x00] /\
  ewkb_point LittleEndian 0x20000001 4326 f_1_0 f_m3_0
    = map byte.of_Z [0x01; 0x01; 0x00; 0x00; 0x20; 0xE6; 0x10; 0x00; 0x00;
                     0x00; 0x00; 0x00; 0x00; 0x00; 0x00; 0xF0; 0x3F;
                     0x00; 0x00; 0x00; 0x00; 0x00; 0x00; 0x08; 0xC0] /\
  from_wkb (ewkb_point BigEndian 0x20000001 4326 f_1_0 f_m3_0)
    = Return (mkPoint f_1_0 f_m3_0) /\
  from_wkb (ewkb_point LittleEndian 0x20000001 4326 f_1_0 f_m3_0)
    = Return (mkPoint f_1_0 f_m3_0) /\
  from_wkb (ewkb_point BigEndian 0x20000001 4326 f_1_0 f_m3_0)
    = from_wkb (ewkb_point LittleEndian 0x20000001 4326 f_1_0 f_m3_0) /\
  float_Q f_1_0 = Some 1%Q /\ float_Q f_m3_0 = Some (-3)%Q.
Proof.
  split; [vm_compute; reflexivity|].
  split; [vm_compute; reflexivity|].
  assert (H : forall o, from_wkb (ewkb_point o 0x20000001 4326 f_1_0 f_m3_0)
                        = Return (mkPoint f_1_0 f_m3_0)).
  { intros o. apply from_wkb_ewkb_point; cbn; lia. }
  split; [apply H|]. split; [apply H|].
  split; [rewrite !H; reflexivity|].
  split; vm_compute; reflexivity.
Qed.

(** ** The text form of a float: digit generation *)

Lemma log10_up_spec (fuel : nat) :
  forall n d k,
    0 < d <= n -> n < d * 10 ^ Z.of_nat fuel ->
    exists j, 0 <= j /\ log10_up fuel n d k = k + j /\
              d * 10 ^ j <= n < d * 10 ^ (j + 1).
Proof.
  induction fuel as [|fuel IH]; intros n d k Hd Hn.
  - cbn in Hn. lia.
  - cbn [log10_up].
    destruct (Z.leb_spec (10 * d) n) as [Hle|Hgt].
    + destruct (IH n (10 * d) (k + 1)) as (j & Hj & Hk & Hb).
      * lia.
      * rewrite Nat2Z.inj_succ, Z.pow_succ_r in Hn by lia. lia.
      * exists (j + 1). split; [lia|]. split; [lia|].
        rewrite !Z.pow_add_r by lia. rewrite !Z.pow_add_r in Hb by lia.
        change (10 ^ 1) with 10 in *. lia.
    + exists 0. split; [lia|]. split; [lia|].
      change (10 ^ (0 + 1)) with 10. change (10 ^ 0) with 1. lia.
Qed.

Lemma log10_down_spec (fuel : nat) :
  forall n d k,
    0 < n < d -> d <= n * 10 ^ Z.of_nat fuel ->
    exists j, 0 < j /\ log10_down fuel n d k = k - j /\
              d <= n * 10 ^ j < 10 * d.
Proof.
  induction fuel as [|fuel IH]; intros n d k Hd Hn.
  - cbn in Hn. lia.
  - cbn [log10_down].
    destruct (Z.ltb_spec n d) as [Hlt|Hge]; [|lia].
    destruct fuel as [|fuel'].
    + cbn [log10_down]. exists 1. change (10 ^ 1) with 10.
      change (10 ^ Z.of_nat 1) with 10 in Hn. lia.
    + destruct (Z.ltb_spec (10 * n) d) as [Hlt'|Hge'].
      * destruct (IH (10 * n) d (k - 1)) as (j & Hj & Hk & Hb).
        -- lia.
        -- rewrite Nat2Z.inj_succ, Z.pow_succ_r in Hn by lia. lia.
        -- exists (j + 1). split; [lia|]. split; [lia|].
           rewrite Z.pow_add_r by lia. change (10 ^ 1) with 10. lia.
      * cbn [log10_down].
        destruct (Z.ltb_spec (10 * n) d) as [?|_]; [lia|].
        exists 1. change (10 ^ 1) with 10. lia.
Qed.

(** The search for the decimal exponent finds it within its fuel: with
    [k = floor_log10 fuel n d], [10^k <= n / d < 10^(k+1)]. *)
Lemma floor_log10_spec (fuel : nat) (n d : Z) :
  0 < n -> 0 < d ->
  n < d * 10 ^ Z.of_nat fuel -> d <= n * 10 ^ Z.of_nat fuel ->
  let k := floor_log10 fuel n d in
  if 0 <=? k then d * 10 ^ k <= n < 10 * (d * 10 ^ k)
  else d <= n * 10 ^ (- k) < 10 * d.
Proof.
  intros Hn Hd Hup Hdown. unfold floor_log10.
  destruct (Z.leb_spec d n) as [Hle|Hgt].
  - destruct (log10_up_spec fuel n d 0) as (j & Hj & Hk & Hb);
      [lia|exact Hup|].
    cbv zeta. rewrite Hk. cbn [Z.add].
    destruct (Z.leb_spec 0 j); [|lia].
    rewrite Z.pow_add_r in Hb by lia. change (10 ^ 1) with 10 in Hb. lia.
  - destruct (log10_down_spec fuel n d 0) as (j & Hj & Hk & Hb);
      [lia|exact Hdown|].
    cbv zeta. rewrite Hk.
    destruct (Z.leb_spec 0 (0 - j)); [lia|].
    replace (- (0 - j)) with j by lia. exact Hb.
Qed.

(** The decimal exponent is determined by the number, not by the fuel. *)
Lemma floor_log10_fuel (fuel fuel' : nat) (n d : Z) :
  0 < n -> 0 < d ->
  n < d * 10 ^ Z.of_nat fuel -> d <= n * 10 ^ Z.of_nat fuel ->
  (fuel <= fuel')%nat ->
  floor_log10 fuel' n d = floor_log10 fuel n d.
Proof.
  intros Hn Hd Hup Hdown Hf.
  assert (Hp : 10 ^ Z.of_nat fuel <= 10 ^ Z.of_nat fuel')
    by (apply Z.pow_le_mono_r; lia).
  pose proof (floor_log10_spec fuel n d Hn Hd Hup Hdown) as H1.
  assert (Hup' : n < d * 10 ^ Z.of_nat fuel') by nia.
  assert (Hdown' : d <= n * 10 ^ Z.of_nat fuel') by nia.
  pose proof (floor_log10_spec fuel' n d Hn Hd Hup' Hdown') as H2.
  cbv zeta in H1, H2.
  set (k := floor_log10 fuel n d) in *.
  set (k' := floor_log10 fuel' n d) in *.
  clearbody k k'.
  destruct (Z.lt_trichotomy k' k) as [Hlt|[Heq|Hlt]]; [exfalso|exact Heq|exfalso].
  - (* k' < k *)
    destruct (Z.leb_spec 0 k) as [Hk|Hk], (Z.leb_spec 0 k') as [Hk'|Hk'].
    + assert (10 * 10 ^ k' <= 10 ^ k).
      { rewrite <- Z.pow_succ_r by lia. apply Z.pow_le_mono_r; lia. }
      nia.
    + assert (0 < 10 ^ k) by (apply Z.pow_pos_nonneg; lia).
      assert (10 <= 10 ^ (- k')).
      { change 10 with (10 ^ 1) at 1. apply Z.pow_le_mono_r; lia. }
      nia.
    + lia.
    + assert (10 * 10 ^ (- k) <= 10 ^ (- k')).
      { rewrite <- Z.pow_succ_r by lia. apply Z.pow_le_mono_r; lia. }
      nia.
  - destruct (Z.leb_spec 0 k) as [Hk|Hk], (Z.leb_spec 0 k') as [Hk'|Hk'].
    + assert (10 * 10 ^ k <= 10 ^ k').
      { rewrite <- Z.pow_succ_r by lia. apply Z.pow_le_mono_r; lia. }
      nia.
    + lia.
    + assert (0 < 10 ^ k') by (apply Z.pow_pos_nonneg; lia).
      assert (10 <= 10 ^ (- k)).
      { change 10 with (10 ^ 1) at 1. apply Z.pow_le_mono_r; lia. }
      nia.
    + assert (10 * 10 ^ (- k') <= 10 ^ (- k)).
      { rewrite <- Z.pow_succ_r by lia. apply Z.pow_le_mono_r; lia. }
      nia.
Qed.

Lemma last_cons_ge (d : Z) (s : list Z) :
  (s = [] -> 1 <= d) -> (s <> [] -> 1 <= last s 0) -> 1 <= last (d :: s) 0.
Proof.
  intros H1 H2. destruct s as [|d' s']; [apply H1; reflexivity|].
  apply H2. discriminate.
Qed.

Lemma dtoa_digits_range (fuel : nat) :
  forall even b den mlo mhi s s' r9,
    0 < den -> 0 <= b < 10 * den ->
    Forall is_dig s ->
    (s = [] -> den <= b /\ fuel <> O) ->
    (s <> [] -> 1 <= last s 0) ->
    dtoa_digits fuel even b den mlo mhi s = (s', r9) ->
    Forall is_dig s' /\ 1 <= last s' 0.
Proof.
  induction fuel as [|fuel IH]; intros even b den mlo mhi s s' r9
    Hden Hb Hs Hnil Hcons Hrun.
  - cbn in Hrun. injection Hrun as <- <-.
    destruct s as [|d s0]; [destruct Hnil as [_ Hf]; [reflexivity|]; congruence|].
    split; [exact Hs|apply Hcons; discriminate].
  - cbn [dtoa_digits] in Hrun. cbv zeta in Hrun.
    assert (Hdig : 0 <= b / den <= 9).
    { split; [apply Z.div_pos; lia|].
      assert (b / den < 10); [|lia].
      apply Z.div_lt_upper_bound; lia. }
    assert (Hdig1 : s = [] -> 1 <= b / den).
    { intros E. destruct (Hnil E) as [Hle _].
      apply Z.div_le_lower_bound; lia. }
    assert (Hmod : 0 <= b mod den < den) by (apply Z.mod_pos_bound; lia).
    assert (Hexit : forall d, (d = b / den \/ (d = b / den + 1 /\ b / den <> 9)
                               \/ (d = 9 /\ b / den = 9)) ->
              Forall is_dig (d :: s) /\ 1 <= last (d :: s) 0).
    { intros d Hd. split.
      - constructor; [unfold is_dig; lia|exact Hs].
      - apply last_cons_ge; [intros E; specialize (Hdig1 E); lia|exact Hcons]. }
    repeat match type of Hrun with
           | (if ?c then _ else _) = _ => destruct c eqn:?
           end;
      try (injection Hrun as <- <-; apply Hexit;
           repeat match goal with
                  | H : (_ =? _) = true |- _ => apply Z.eqb_eq in H
                  | H : (_ =? _) = false |- _ => apply Z.eqb_neq in H
                  | |- context [if ?c then _ else _] => destruct c
                  end; lia).
    apply (IH _ _ _ _ _ _ _ _ Hden) in Hrun.
    + exact Hrun.
    + lia.
    + apply Hexit. left; reflexivity.
    + discriminate.
    + intros _. apply Hexit. left; reflexivity.
Qed.

Lemma roundoff_range (s : list Z) :
  forall s2 c,
    Forall is_dig s -> 1 <= last s 0 -> roundoff s = (s2, c) ->
    Forall is_dig s2 /\ 1 <= last s2 0.
Proof.
  induction s as [|d s IH]; intros s2 c Hs Hl Hr.
  - cbn in Hl. lia.
  - cbn [roundoff] in Hr. inversion Hs as [|? ? Hd Hs']; subst.
    destruct (Z.eqb_spec d 9) as [->|Hne].
    + destruct s as [|d' s'].
      * cbn in Hr. injection Hr as <- <-.
        split; [repeat constructor; unfold is_dig; lia|cbn; lia].
      * apply IH in Hr; [exact Hr|exact Hs'|exact Hl].
    + injection Hr as <- <-. split.
      * constructor; [unfold is_dig in *; lia|exact Hs'].
      * apply last_cons_ge; [intros ->; unfold is_dig in Hd; lia|].
        intros Hn. destruct s; [congruence|exact Hl].
Qed.

(** Once [mlo] has grown to [den] the loop stops, so that the result does
    not depend on the fuel that is left. *)
Lemma dtoa_digits_fuel (n : nat) :
  forall fuel fuel' even b den mlo mhi s,
    (n < fuel)%nat -> (n < fuel')%nat ->
    0 < den -> den <= mlo * 10 ^ Z.of_nat n ->
    dtoa_digits fuel even b den mlo mhi s
    = dtoa_digits fuel' even b den mlo mhi s.
Proof.
  induction n as [|n IH]; intros fuel fuel' even b den mlo mhi s
    Hf Hf' Hden Hmlo;
    (destruct fuel as [|fuel]; [lia|]); (destruct fuel' as [|fuel']; [lia|]);
    cbn [dtoa_digits]; cbv zeta.
  - assert (Hmod : 0 <= b mod den < den) by (apply Z.mod_pos_bound; lia).
    change (10 ^ Z.of_nat 0) with 1 in Hmlo.
    assert (Hj : (b mod den ?= mlo) = Lt) by (apply Z.compare_lt_iff; lia).
    rewrite Hj. cbn [is_Lt is_Eq is_Gt orb].
    destruct (is_Eq _ && even); reflexivity.
  - rewrite (IH fuel fuel' even (10 * (b mod den)) den (10 * mlo) (10 * mhi)
               (b / den :: s)); [reflexivity|lia|lia|lia|].
    rewrite Nat2Z.inj_succ, Z.pow_succ_r in Hmlo by lia. lia.
Qed.

Section FiniteDouble.

Variables f be : Z.
Hypothesis Hf : 0 <= f < 2 ^ 52.
Hypothesis Hbe : 0 <= be < 2047.
Hypothesis Hnz : be = 0 -> f <> 0.

Lemma mantissa_range : 1 <= mantissa f be < 2 ^ 53.
Proof.
  unfold mantissa. destruct (Z.eqb_spec be 0) as [E|E].
  - specialize (Hnz E). lia.
  - change (2 ^ 53) with (2 ^ 52 + 2 ^ 52). lia.
Qed.

Lemma binary_exponent_range : -1074 <= binary_exponent be <= 971.
Proof. unfold binary_exponent. destruct (Z.eqb_spec be 0); lia. Qed.

Lemma dtoa_init_facts :
  let '(b, den, mlo, mhi) := dtoa_init f be in
  0 < b /\ 0 < den /\ 0 < mlo /\ b <= 2 ^ 54 * mlo /\
  b < den * 2 ^ 1024 /\ den <= b * 2 ^ 1074.
Proof.
  unfold dtoa_init. cbv zeta.
  pose proof mantissa_range as Hm. pose proof binary_exponent_range as He.
  assert (Hsc : (f =? 0) && (2 <=? be) = true -> mantissa f be = 2 ^ 52).
  { intros H. apply andb_true_iff in H as [H1 H2].
    apply Z.eqb_eq in H1. apply Z.leb_le in H2.
    unfold mantissa. destruct (Z.eqb_spec be 0); lia. }
  set (m := mantissa f be) in *. set (e := binary_exponent be) in *.
  clearbody m e.
  destruct (Z.leb_spec 0 e) as [He0|He0].
  - assert (Hp : 1 <= 2 ^ e <= 2 ^ 971).
    { split; [change 1 with (2 ^ 0); apply Z.pow_le_mono_r; lia|].
      apply Z.pow_le_mono_r; lia. }
    replace (2 ^ 1024) with (2 ^ 53 * 2 ^ 971) by reflexivity.
    set (A := 2 ^ 971) in *. set (B := 2 ^ 1074).
    assert (0 < B) by reflexivity. clearbody A B.
    destruct ((f =? 0) && (2 <=? be)).
    + rewrite Z.pow_add_r by lia. rewrite Hsc by reflexivity.
      set (p := 2 ^ e) in *. clearbody p.
      change (2 ^ 2) with 4. change (2 ^ 54) with (2 ^ 52 * 4).
      change (2 ^ 53) with (2 ^ 52 * 2). set (M := 2 ^ 52).
      assert (0 < M) by reflexivity. clearbody M. nia.
    + rewrite Z.pow_add_r by lia.
      set (p := 2 ^ e) in *. clearbody p.
      change (2 ^ 1) with 2. change (2 ^ 54) with (2 ^ 53 * 2).
      set (M := 2 ^ 53) in *. assert (0 < M) by reflexivity. clearbody M.
      nia.
  - assert (Hp : 1 <= 2 ^ (- e) <= 2 ^ 1074).
    { split; [change 1 with (2 ^ 0); apply Z.pow_le_mono_r; lia|].
      apply Z.pow_le_mono_r; lia. }
    set (A := 2 ^ 1024). assert (HA : 2 ^ 53 <= A) by (vm_compute; discriminate).
    set (B := 2 ^ 1074) in *. clearbody A B.
    destruct ((f =? 0) && (2 <=? be)).
    + replace (2 - e) with (2 + - e) by lia. rewrite Z.pow_add_r by lia.
      rewrite Hsc by reflexivity.
      set (p := 2 ^ (- e)) in *. clearbody p.
      change (2 ^ 2) with 4. change (2 ^ 54) with (2 ^ 52 * 4).
      change (2 ^ 53) with (2 ^ 52 * 2) in HA.
      set (M := 2 ^ 52) in *. assert (0 < M) by reflexivity. clearbody M. nia.
    + replace (1 - e) with (1 + - e) by lia. rewrite Z.pow_add_r by lia.
      set (p := 2 ^ (- e)) in *. clearbody p.
      change (2 ^ 1) with 2. change (2 ^ 54) with (2 ^ 53 * 2).
      set (M := 2 ^ 53) in *. assert (0 < M) by reflexivity. clearbody M.
      nia.
Qed.

Lemma dtoa_scale_facts (fk : nat) :
  (400 <= fk)%nat ->
  forall b0 den0 mlo0 mhi0,
    dtoa_init f be = (b0, den0, mlo0, mhi0) ->
    floor_log10 fk b0 den0 = floor_log10 400 b0 den0 /\
    forall b den mlo mhi,
      dtoa_scale (floor_log10 400 b0 den0) (b0, den0, mlo0, mhi0)
      = (b, den, mlo, mhi) ->
      0 < den /\ den <= b < 10 * den /\ den <= mlo * 10 ^ 17.
Proof.
  intros Hfk b0 den0 mlo0 mhi0 Hinit.
  pose proof dtoa_init_facts as H. rewrite Hinit in H.
  destruct H as (Hb & Hden & Hmlo & Hc & Hup & Hdown).
  assert (H1 : 2 ^ 1024 <= 10 ^ 400) by (vm_compute; discriminate).
  assert (H2 : 2 ^ 1074 <= 10 ^ 400) by (vm_compute; discriminate).
  assert (H3 : 2 ^ 54 <= 10 ^ 17) by (vm_compute; discriminate).
  assert (Hup' : b0 < den0 * 10 ^ Z.of_nat 400).
  { change (Z.of_nat 400) with 400. set (T := 10 ^ 400) in *.
    set (A := 2 ^ 1024) in *. clearbody T A. nia. }
  assert (Hdown' : den0 <= b0 * 10 ^ Z.of_nat 400).
  { change (Z.of_nat 400) with 400. set (T := 10 ^ 400) in *.
    set (A := 2 ^ 1074) in *. clearbody T A. nia. }
  split; [apply floor_log10_fuel; assumption|].
  pose proof (floor_log10_spec 400 b0 den0 Hb Hden Hup' Hdown') as Hk.
  cbv zeta in Hk. set (k := floor_log10 400 b0 den0) in *. clearbody k.
  clear Hup Hdown Hup' Hdown' H1 H2.
  set (C := 2 ^ 54) in *. set (D := 10 ^ 17) in *.
  assert (0 < C) by reflexivity. clearbody C D.
  intros b den mlo mhi Hs. unfold dtoa_scale in Hs.
  destruct (Z.leb_spec 0 k) as [Hk0|Hk0]; injection Hs as <- <- <- <-.
  - assert (0 < 10 ^ k) by (apply Z.pow_pos_nonneg; lia).
    set (t := 10 ^ k) in *. clearbody t. nia.
  - assert (0 < 10 ^ (- k)) by (apply Z.pow_pos_nonneg; lia).
    set (t := 10 ^ (- k)) in *. clearbody t.
    assert (b0 * t <= C * mlo0 * t) by nia.
    assert (0 <= mlo0 * t) by nia.
    assert (C * (mlo0 * t) <= D * (mlo0 * t))
      by (apply Z.mul_le_mono_nonneg_r; lia).
    repeat split; lia.
Qed.

Lemma rev_digits (l : list Z) :
  Forall is_dig l -> 1 <= last l 0 ->
  exists d0 rest, rev l = d0 :: rest /\ 1 <= d0 <= 9 /\ Forall is_dig rest.
Proof.
  intros Hl Hlast.
  assert (Hne : l <> []) by (intros ->; cbn in Hlast; lia).
  pose proof (app_removelast_last 0 Hne) as E.
  set (d0 := last l 0) in *. set (r := removelast l) in *.
  clearbody d0 r. subst l.
  apply Forall_app in Hl as [Hl1 Hl2].
  rewrite rev_app_distr. cbn [rev app].
  exists d0, (rev r). split; [reflexivity|]. split.
  - inversion Hl2 as [|? ? Hd _]; subst. unfold is_dig in Hd. lia.
  - apply Forall_rev. exact Hl1.
Qed.

(** No finite double exhausts 400 rounds of the exponent search or 18
    rounds of the digit loop: more fuel gives the same digits. *)
Lemma dtoa_finite_fuel (fk fd : nat) :
  (400 <= fk)%nat -> (18 <= fd)%nat ->
  dtoa_finite fk fd f be = dtoa_finite 400 20 f be.
Proof.
  intros Hfk Hfd. unfold dtoa_finite.
  destruct (dtoa_init f be) as [[[b0 den0] mlo0] mhi0] eqn:Hinit.
  destruct (dtoa_scale_facts fk Hfk _ _ _ _ Hinit) as [Hk Hs].
  rewrite Hk.
  destruct (dtoa_scale _ _) as [[[b den] mlo] mhi] eqn:Hscale.
  destruct (Hs _ _ _ _ eq_refl) as (Hden & _ & Hmlo).
  rewrite (dtoa_digits_fuel 17 fd 20); [reflexivity|lia|lia|exact Hden|].
  exact Hmlo.
Qed.

(** The digits of a finite double: at least one, each between 0 and 9, the
    first one not 0. *)
Lemma dtoa_finite_digits (fk fd : nat) (digits : list Z) (decpt : Z) :
  (400 <= fk)%nat -> fd <> O ->
  dtoa_finite fk fd f be = (digits, decpt) ->
  exists d0 rest,
    digits = d0 :: rest /\ 1 <= d0 <= 9 /\ Forall is_dig rest.
Proof.
  intros Hfk Hfd. unfold dtoa_finite.
  destruct (dtoa_init f be) as [[[b0 den0] mlo0] mhi0] eqn:Hinit.
  destruct (dtoa_scale_facts fk Hfk _ _ _ _ Hinit) as [Hk Hs].
  rewrite Hk.
  destruct (dtoa_scale _ _) as [[[b den] mlo] mhi] eqn:Hscale.
  destruct (Hs _ _ _ _ eq_refl) as (Hden & Hb & _).
  destruct (dtoa_digits _ _ _ _ _ _ _) as [s r9] eqn:Hrun.
  apply dtoa_digits_range in Hrun as [Hs1 Hs2];
    [|exact Hden|lia|constructor| |congruence].
  2: { intros _. split; [lia|exact Hfd]. }
  destruct r9.
  - destruct (roundoff s) as [s' carry] eqn:Hr.
    apply roundoff_range in Hr as [Hr1 Hr2]; [|exact Hs1|exact Hs2].
    intros [= <- _]. apply rev_digits; assumption.
  - intros [= <- _]. apply rev_digits; assumption.
Qed.

End FiniteDouble.

(** ** The text form of a float: layout *)

Lemma is_digit_neq (c x : ascii) :
  is_digit c = true -> is_digit x = false -> (c =? x)%char = false.
Proof.
  intros Hc Hx. destruct (Ascii.eqb_spec c x) as [->|]; [congruence|reflexivity].
Qed.

Lemma skip_digits_app (ds rest : list ascii) :
  forallb is_digit ds = true -> terminates rest ->
  skip_digits (ds ++ rest) = rest.
Proof.
  intros Hds Hr. induction ds as [|d ds IH].
  - destruct rest as [|c r]; [reflexivity|].
    cbn. destruct Hr as (-> & _). reflexivity.
  - cbn in Hds. apply andb_true_iff in Hds as [Hd Hds].
    cbn. rewrite Hd. apply IH, Hds.
Qed.

Lemma skip_digits_app_nondigit (ds : list ascii) (c : ascii) (rest : list ascii) :
  forallb is_digit ds = true -> is_digit c = false ->
  skip_digits (ds ++ c :: rest) = c :: rest.
Proof.
  intros Hds Hc. induction ds as [|d ds IH].
  - cbn. rewrite Hc. reflexivity.
  - cbn in Hds. apply andb_true_iff in Hds as [Hd Hds].
    cbn. rewrite Hd. apply IH, Hds.
Qed.

Lemma json_exp_none (rest : list ascii) :
  terminates rest -> json_exp rest = Accept rest.
Proof.
  destruct rest as [|c r]; [reflexivity|].
  intros (_ & _ & He & HE). cbn. rewrite He, HE. reflexivity.
Qed.

Lemma json_exp_some (sgn : ascii) (E rest : list ascii) :
  sgn = "+"%char \/ sgn = "-"%char ->
  E <> [] -> forallb is_digit E = true -> terminates rest ->
  json_exp ("e"%char :: sgn :: E ++ rest) = Accept rest.
Proof.
  intros Hs Hne HE Hr. destruct E as [|d E']; [congruence|].
  cbn in HE. apply andb_true_iff in HE as [Hd HE].
  cbn [json_exp Ascii.eqb Bool.eqb andb orb app].
  replace ((sgn =? "+")%char || (sgn =? "-")%char) with true
    by (destruct Hs as [-> | ->]; reflexivity).
  rewrite Hd. rewrite skip_digits_app by assumption. reflexivity.
Qed.

Lemma json_frac_fixed (F rest : list ascii) :
  F <> [] -> forallb is_digit F = true -> terminates rest ->
  json_frac ("."%char :: F ++ rest) = Accept rest.
Proof.
  intros Hne HF Hr. destruct F as [|d F']; [congruence|].
  cbn in HF. apply andb_true_iff in HF as [Hd HF].
  cbn [json_frac Ascii.eqb Bool.eqb andb app]. rewrite Hd.
  rewrite skip_digits_app by assumption. apply json_exp_none, Hr.
Qed.

Lemma json_frac_exp (F : list ascii) (sgn : ascii) (E rest : list ascii) :
  forallb is_digit F = true ->
  sgn = "+"%char \/ sgn = "-"%char ->
  E <> [] -> forallb is_digit E = true -> terminates rest ->
  json_frac (match F with [] => [] | _ => "."%char :: F end
               ++ "e"%char :: sgn :: E ++ rest) = Accept rest.
Proof.
  intros HF Hs Hne HE Hr. destruct F as [|d F'].
  - cbn [app json_frac Ascii.eqb Bool.eqb andb].
    apply json_exp_some; assumption.
  - cbn in HF. apply andb_true_iff in HF as [Hd HF].
    cbn [json_frac Ascii.eqb Bool.eqb andb app]. rewrite Hd.
    rewrite skip_digits_app_nondigit by (assumption || reflexivity).
    apply json_exp_some; assumption.
Qed.

(** [json_number] on an optional sign, an integer part and what follows. *)
Lemma json_number_int (sign : bool) (c : ascii) (cs t : list ascii) (r : parse) :
  is_digit c = true ->
  (c = "0"%char -> cs = []) ->
  forallb is_digit cs = true ->
  (exists x u, t = x :: u /\ is_digit x = false) ->
  json_frac t = r ->
  json_number ((if sign then ["-"%char] else []) ++ c :: cs ++ t) = r.
Proof.
  intros Hc H0 Hcs (x & u & -> & Hx) Hr.
  assert (Hm : (c =? "-")%char = false) by (apply is_digit_neq; auto).
  assert (H : json_number (c :: cs ++ x :: u) = r).
  { unfold json_number. rewrite Hm.
    destruct (Ascii.eqb_spec c "0") as [E|E].
    - rewrite (H0 E). exact Hr.
    - rewrite Hc. rewrite skip_digits_app_nondigit by assumption. exact Hr. }
  destruct sign; [|exact H].
  cbn [app]. unfold json_number in H |- *. rewrite Hm in H.
  cbn [Ascii.eqb Bool.eqb andb]. exact H.
Qed.


Lemma la_app (a b : string) :
  list_ascii_of_string (a ++ b)
  = (list_ascii_of_string a ++ list_ascii_of_string b)%list.
Proof. induction a as [|c a IH]; cbn; [reflexivity|now rewrite IH]. Qed.

Lemma la_zeros (n : Z) :
  list_ascii_of_string (zeros n) = repeat "0"%char (Z.to_nat n).
Proof. apply list_ascii_of_string_of_list_ascii. Qed.

Lemma la_digits_sub (ds : list Z) (i n : Z) :
  list_ascii_of_string (digits_sub ds i n)
  = map digit_char (firstn (Z.to_nat n) (skipn (Z.to_nat i) ds)).
Proof. apply list_ascii_of_string_of_list_ascii. Qed.

Lemma is_digit_digit_char (d : Z) :
  is_dig d -> is_digit (digit_char d) = true.
Proof.
  unfold is_dig. intros H.
  assert (E : d = 0 \/ d = 1 \/ d = 2 \/ d = 3 \/ d = 4 \/ d = 5 \/ d = 6
              \/ d = 7 \/ d = 8 \/ d = 9) by lia.
  repeat (destruct E as [-> | E]; [reflexivity|]). subst. reflexivity.
Qed.

Lemma digit_char_zero (d : Z) :
  is_dig d -> digit_char d = "0"%char -> d = 0.
Proof.
  unfold is_dig. intros H.
  assert (E : d = 0 \/ d = 1 \/ d = 2 \/ d = 3 \/ d = 4 \/ d = 5 \/ d = 6
              \/ d = 7 \/ d = 8 \/ d = 9) by lia.
  repeat (destruct E as [-> | E]; [intros; reflexivity || discriminate|]).
  subst. discriminate.
Qed.

Lemma digits_chars (ds : list Z) :
  Forall is_dig ds -> forallb is_digit (map digit_char ds) = true.
Proof.
  induction 1 as [|d ds Hd _ IH]; [reflexivity|].
  cbn. rewrite is_digit_digit_char by assumption. exact IH.
Qed.

Lemma zeros_chars (k : nat) : forallb is_digit (repeat "0"%char k) = true.
Proof. induction k; [reflexivity|exact IHk]. Qed.

Lemma forallb_digit_app (a b : list ascii) :
  forallb is_digit a = true -> forallb is_digit b = true ->
  forallb is_digit (a ++ b) = true.
Proof. intros Ha Hb. rewrite forallb_app, Ha, Hb. reflexivity. Qed.

Lemma digits_last (F : list ascii) :
  F <> [] -> forallb is_digit F = true ->
  exists F' c, F = (F' ++ [c])%list /\ is_digit c = true.
Proof.
  intros Hne HF. destruct (exists_last Hne) as (F' & c & ->).
  exists F', c. split; [reflexivity|].
  rewrite forallb_app in HF. apply andb_true_iff in HF as [_ HF].
  cbn in HF. now rewrite andb_true_r in HF.
Qed.

Lemma strip_trailing_dot_last (p : string) (l : list ascii) (c : ascii) :
  list_ascii_of_string p = (l ++ [c])%list ->
  list_ascii_of_string (strip_trailing_dot p)
  = if (c =? ".")%char then l else (l ++ [c])%list.
Proof.
  intros H. unfold strip_trailing_dot. rewrite H, rev_app_distr.
  cbn [rev app]. destruct (c =? ".")%char; [|exact H].
  rewrite list_ascii_of_string_of_list_ascii. apply rev_involutive.
Qed.

Lemma uint_chars (u : Decimal.uint) :
  forallb is_digit (list_ascii_of_string (NilEmpty.string_of_uint u)) = true.
Proof. induction u; cbn; auto. Qed.

Lemma sprintf_exp_chars (n : Z) :
  exists sgn E,
    list_ascii_of_string (sprintf_exp n) = sgn :: E /\
    (sgn = "+"%char \/ sgn = "-"%char) /\
    E <> [] /\ forallb is_digit E = true.
Proof.
  unfold sprintf_exp. cbv zeta.
  set (u := N.to_uint _).
  exists (if n <? 0 then "-"%char else "+"%char),
    ((if Z.abs n <? 10 then ["0"%char] else [])
       ++ list_ascii_of_string (NilZero.string_of_uint u))%list.
  split; [|split; [destruct (n <? 0); auto|]].
  - rewrite !la_app. destruct (n <? 0), (Z.abs n <? 10); reflexivity.
  - assert (Hu : list_ascii_of_string (NilZero.string_of_uint u) <> [] /\
                 forallb is_digit (list_ascii_of_string (NilZero.string_of_uint u)) = true).
    { unfold NilZero.string_of_uint.
      destruct u; try (split; [discriminate|reflexivity]);
        (split; [cbn; discriminate|apply uint_chars]). }
    destruct Hu as [Hne Hd]. split.
    + destruct (Z.abs n <? 10); [discriminate|exact Hne].
    + apply forallb_digit_app; [destruct (Z.abs n <? 10); reflexivity|exact Hd].
Qed.

Ltac split_cmp :=
  repeat match goal with
         | |- context [?a <=? ?b] => destruct (Z.leb_spec a b); try lia
         | |- context [?a <? ?b] => destruct (Z.ltb_spec a b); try lia
         end.

Lemma la_sign (sign : bool) :
  list_ascii_of_string (if sign then "-" else "") = sign_chars sign.
Proof. destruct sign; reflexivity. Qed.

Lemma strip_trailing_dot_digits (p : string) (l F : list ascii) :
  list_ascii_of_string p = (l ++ F)%list -> F <> [] -> forallb is_digit F = true ->
  list_ascii_of_string (strip_trailing_dot p) = (l ++ F)%list.
Proof.
  intros Hp Hne HF. destruct (digits_last F Hne HF) as (F' & c & -> & Hc).
  rewrite app_assoc in Hp |- *.
  rewrite (strip_trailing_dot_last p _ c Hp).
  rewrite is_digit_neq by (assumption || reflexivity). reflexivity.
Qed.

Lemma Forall_firstn_skipn {A : Type} (P : A -> Prop) (k : nat) (l : list A) :
  Forall P l -> Forall P (firstn k l) /\ Forall P (skipn k l).
Proof.
  intros H. rewrite <- (firstn_skipn k l) in H.
  apply Forall_app in H. exact H.
Qed.

Lemma length_nonempty {A : Type} (l : list A) :
  (0 < List.length l)%nat -> l <> [].
Proof. destruct l; cbn; [lia|discriminate]. Qed.

Lemma format_float_short_signed (sign : bool) (d0 : Z) (rest : list Z)
    (decpt : Z) :
  is_dig d0 -> Forall is_dig rest ->
  (d0 = 0 -> rest = [] /\ decpt = 1) ->
  signed_number_shape sign (list_ascii_of_string (format_float_short sign (d0 :: rest) decpt)).
Proof.
  intros Hd0 Hrest Hzero.
  assert (HD : Forall is_dig (d0 :: rest)) by (constructor; assumption).
  assert (Hc0 : is_digit (digit_char d0) = true)
    by (apply is_digit_digit_char, Hd0).
  assert (Hcr : forall k, forallb is_digit
                            (map digit_char (firstn k rest)) = true).
  { intros k. apply digits_chars, (Forall_firstn_skipn _ k rest Hrest). }
  unfold format_float_short. cbv zeta.
  set (D := d0 :: rest).
  assert (Hn : Z.of_nat (List.length D) = 1 + Z.of_nat (List.length rest))
    by (unfold D; cbn [List.length]; lia).
  set (n := Z.of_nat (List.length D)) in *.
  assert (Hexp :
    signed_number_shape sign
      (list_ascii_of_string (strip_trailing_dot
             ((((if sign then "-" else "") ++ zeros (0 - 0)) ++
               digits_sub D 0 1 ++ "." ++ digits_sub D 1 (n - 1)) ++
              zeros (Z.max n 1 - n)) ++ "e" ++ sprintf_exp (decpt - 1)))).
  { destruct (sprintf_exp_chars (decpt - 1)) as (sg & E & HE & Hsg & Hne & HdE).
    assert (HP : list_ascii_of_string ((((if sign then "-" else "") ++ zeros (0 - 0)) ++
                     digits_sub D 0 1 ++ "." ++ digits_sub D 1 (n - 1)) ++
                    zeros (Z.max n 1 - n))
                 = (sign_chars sign ++ digit_char d0 :: "."%char
                      :: map digit_char rest)%list).
    { rewrite !la_app, !la_zeros, !la_digits_sub, la_sign.
      rewrite Z.max_l by lia.
      replace (Z.to_nat (n - n)) with 0%nat by lia.
      replace (Z.to_nat (n - 1)) with (List.length rest) by lia.
      unfold D. cbn [Z.sub Z.to_nat Z.opp Z.add Pos.to_nat Pos.iter_op Nat.add
                     repeat skipn firstn map app list_ascii_of_string].
      rewrite firstn_all, !app_nil_r. reflexivity. }
    exists (digit_char d0), [], 
      (match map digit_char rest with
       | [] => []
       | _ => "."%char :: map digit_char rest
       end ++ "e"%char :: sg :: E)%list.
    split; [|split; [exact Hc0|split; [reflexivity|split; [reflexivity|]]]].
    - rewrite la_app. change (list_ascii_of_string ("e" ++ sprintf_exp (decpt - 1)))
        with ("e"%char :: list_ascii_of_string (sprintf_exp (decpt - 1))).
      rewrite HE. cbn [app].
      destruct (map digit_char rest) as [|r0 rs] eqn:Hr.
      + change (sign_chars sign ++ [digit_char d0; "."%char])%list
          with (sign_chars sign ++ [digit_char d0] ++ ["."%char])%list in HP.
        rewrite app_assoc in HP.
        rewrite (strip_trailing_dot_last _ _ _ HP). cbn [Ascii.eqb Bool.eqb andb].
        rewrite <- app_assoc. reflexivity.
      + assert (Hrs : forallb is_digit (r0 :: rs) = true).
        { rewrite <- Hr. apply digits_chars, Hrest. }
        change (sign_chars sign ++ digit_char d0 :: "."%char :: r0 :: rs)%list
          with (sign_chars sign ++ [digit_char d0; "."%char] ++ r0 :: rs)%list
          in HP.
        rewrite app_assoc in HP.
        rewrite (strip_trailing_dot_digits _ _ _ HP); [|discriminate|exact Hrs].
        rewrite <- !app_assoc. reflexivity.
    - right. exists (map digit_char rest), sg, E.
      split; [apply digits_chars, Hrest|]. repeat split; assumption. }
  destruct (Z.leb_spec decpt (-4)) as [H4|H4];
    [|destruct (Z.ltb_spec 16 decpt) as [H16|H16]]; cbn [orb negb].
  1, 2: split_cmp; cbn [andb]; exact Hexp.
  clear Hexp.
  destruct (Z.leb_spec decpt 0) as [H0|H0].
  - (* 0.000ddd *)
    split_cmp. cbn [andb].
    split_cmp.
    set (F := (repeat "0"%char (Z.to_nat (0 - decpt))
                 ++ map digit_char D)%list).
    assert (HF : forallb is_digit F = true).
    { apply forallb_digit_app; [apply zeros_chars|apply digits_chars, HD]. }
    assert (HFne : F <> []).
    { apply length_nonempty. unfold F, D.
      rewrite length_app. cbn [map List.length]. lia. }
    match goal with
    | |- signed_number_shape sign (list_ascii_of_string (strip_trailing_dot ?P)) =>
        assert (HP : list_ascii_of_string P = ((sign_chars sign ++ ["0"; "."]%char) ++ F)%list)
    end.
    { rewrite !la_app, !la_zeros, !la_digits_sub, la_sign.
      rewrite Z.max_l by lia.
      replace (Z.to_nat (n - n)) with 0%nat by lia.
      replace (Z.to_nat (decpt - (decpt - 1))) with 1%nat by lia.
      replace (Z.to_nat n) with (List.length D) by lia.
      cbn [Z.to_nat repeat skipn list_ascii_of_string app]. rewrite firstn_all, app_nil_r.
      rewrite <- !app_assoc. reflexivity. }
    rewrite (strip_trailing_dot_digits _ _ _ HP HFne HF).
    exists "0"%char, [], ("."%char :: F).
    split; [rewrite <- app_assoc; reflexivity|].
    split; [reflexivity|]. split; [reflexivity|]. split; [reflexivity|].
    left. exists F. auto.
  - destruct (Z.leb_spec decpt n) as [Hle|Hgt].
    + (* ddd.ddd *)
      split_cmp. cbn [andb]. split_cmp.
      set (cs := map digit_char (firstn (Z.to_nat decpt - 1) rest)).
      set (F := (map digit_char
                   (firstn (Z.to_nat (n - decpt)) (skipn (Z.to_nat decpt) D))
                   ++ repeat "0"%char
                        (Z.to_nat (Z.max n (decpt + 1) - n)))%list).
      assert (HF : forallb is_digit F = true).
      { apply forallb_digit_app; [|apply zeros_chars]. apply digits_chars.
        apply Forall_firstn_skipn. apply Forall_firstn_skipn. exact HD. }
      assert (HFne : F <> []).
      { apply length_nonempty. unfold F.
        rewrite length_app, length_map, length_firstn, length_skipn,
          repeat_length.
        destruct (Z.max_spec n (decpt + 1)) as [[? ->]|[? ->]]; lia. }
      match goal with
      | |- signed_number_shape sign (list_ascii_of_string (strip_trailing_dot ?P)) =>
          assert (HP : list_ascii_of_string P = ((sign_chars sign
                                  ++ digit_char d0 :: cs ++ ["."%char])
                                 ++ F)%list)
      end.
      { rewrite !la_app, !la_zeros, !la_digits_sub, la_sign.
        replace (Z.to_nat decpt) with (S (Z.to_nat decpt - 1)) at 1 by lia.
        unfold D at 1.
        cbn [Z.sub Z.to_nat Z.opp Z.add repeat skipn firstn map list_ascii_of_string app].
        fold cs. unfold F.
        rewrite <- !app_assoc. cbn [app]. rewrite <- !app_assoc.
        reflexivity. }
      rewrite (strip_trailing_dot_digits _ _ _ HP HFne HF).
      exists (digit_char d0), cs, ("."%char :: F).
      split; [rewrite <- !app_assoc; cbn [app]; rewrite <- !app_assoc;
              reflexivity|].
      split; [exact Hc0|]. split.
      { intros E. apply digit_char_zero in E; [|exact Hd0].
        destruct (Hzero E) as [-> _]. unfold cs.
        rewrite firstn_nil. reflexivity. }
      split; [apply Hcr|]. left. exists F. auto.
    + (* ddd000.0 *)
      split_cmp. cbn [andb]. split_cmp.
      set (cs := (map digit_char rest
                    ++ repeat "0"%char (Z.to_nat (decpt - n)))%list).
      match goal with
      | |- signed_number_shape sign (list_ascii_of_string (strip_trailing_dot ?P)) =>
          assert (HP : list_ascii_of_string P = ((sign_chars sign
                                  ++ digit_char d0 :: cs ++ ["."%char])
                                 ++ ["0"%char])%list)
      end.
      { rewrite !la_app, !la_zeros, !la_digits_sub, la_sign.
        rewrite Z.max_r by lia.
        replace (Z.to_nat (decpt + 1 - decpt)) with 1%nat by lia.
        replace (Z.to_nat n) with (List.length D) by lia.
        cbn [Z.sub Z.to_nat Z.opp Z.add repeat skipn list_ascii_of_string app].
        rewrite firstn_all. unfold D, cs. cbn [map].
        rewrite <- !app_assoc. cbn [app]. rewrite <- !app_assoc.
        reflexivity. }
      rewrite (strip_trailing_dot_digits _ _ _ HP);
        [|discriminate|reflexivity].
      exists (digit_char d0), cs, ["."%char; "0"%char].
      split; [rewrite <- !app_assoc; cbn [app]; rewrite <- !app_assoc;
              reflexivity|].
      split; [exact Hc0|]. split.
      { intros E. apply digit_char_zero in E; [|exact Hd0].
        destruct (Hzero E) as [-> ->]. cbn [List.length] in Hn. lia. }
      split.
      { unfold cs. apply forallb_digit_app;
          [apply digits_chars, Hrest|apply zeros_chars]. }
      left. exists ["0"%char]. repeat split. discriminate.
Qed.

Lemma format_float_short_shape (sign : bool) (d0 : Z) (rest : list Z)
    (decpt : Z) :
  is_dig d0 -> Forall is_dig rest ->
  (d0 = 0 -> rest = [] /\ decpt = 1) ->
  number_shape
    (list_ascii_of_string (format_float_short sign (d0 :: rest) decpt)).
Proof.
  intros Hd0 Hrest Hzero. exists sign.
  apply format_float_short_signed; assumption.
Qed.

Lemma float_exponent_range (x : float) : 0 <= float_exponent x < 2048.
Proof.
  unfold float_exponent. change 2047 with (Z.ones 11).
  rewrite Z.land_ones by lia. apply Z.mod_pos_bound. reflexivity.
Qed.

Lemma float_fraction_range (x : float) : 0 <= float_fraction x < 2 ^ 52.
Proof.
  unfold float_fraction. rewrite Z.land_ones by lia.
  apply Z.mod_pos_bound. reflexivity.
Qed.

Lemma terminates_app_nondigit (t rest : list ascii) :
  (exists x u, t = x :: u /\ is_digit x = false) ->
  exists x u, (t ++ rest)%list = x :: u /\ is_digit x = false.
Proof. intros (x & u & -> & H). exists x, (u ++ rest)%list. auto. Qed.

Lemma number_shape_json (l : list ascii) :
  number_shape l -> is_json_number l.
Proof.
  intros (sign & c & cs & t & -> & Hc & H0 & Hcs & Ht). split.
  - destruct sign; cbn [sign_chars app]; eauto 6.
  - intros rest Hr.
    replace ((sign_chars sign ++ c :: cs ++ t) ++ rest)%list
      with (sign_chars sign ++ c :: cs ++ (t ++ rest))%list
      by (rewrite <- !app_assoc; cbn [app]; rewrite <- !app_assoc; reflexivity).
    apply json_number_int; try assumption.
    + apply terminates_app_nondigit.
      destruct Ht as [(F & _ & _ & ->)|(F & s & E & _ & _ & _ & _ & ->)].
      * eauto.
      * destruct F; cbn [app]; eauto.
    + destruct Ht as [(F & HFne & HF & ->)|(F & s & E & HF & Hs & HE & HdE & ->)].
      * cbn [app]. apply json_frac_fixed; assumption.
      * rewrite <- app_assoc. cbn [app]. apply json_frac_exp; assumption.
Qed.

Section Repr.

Variable x : float.
Hypothesis Hfin : is_finite x = true.

Lemma float_repr_fuel_shape (fk fd : nat) :
  (400 <= fk)%nat -> fd <> O ->
  number_shape (list_ascii_of_string (float_repr_fuel fk fd x)).
Proof.
  intros Hfk Hfd. unfold float_repr_fuel. cbv zeta.
  unfold is_finite in Hfin. apply negb_true_iff in Hfin. rewrite Hfin.
  pose proof (float_exponent_range x) as He.
  pose proof (float_fraction_range x) as Hf.
  apply Z.eqb_neq in Hfin.
  destruct ((float_exponent x =? 0) && (float_fraction x =? 0)) eqn:Hz.
  - apply format_float_short_shape; [unfold is_dig; lia|constructor|auto].
  - destruct (dtoa_finite _ _ _ _) as [digits decpt] eqn:Hd.
    apply dtoa_finite_digits in Hd as (d0 & rest & -> & Hd0 & Hrest);
      try assumption; try lia.
    apply format_float_short_shape; [unfold is_dig; lia|exact Hrest|lia].
Qed.

Lemma float_repr_fuel_enough_finite (fk fd : nat) :
  (400 <= fk)%nat -> (18 <= fd)%nat ->
  float_repr_fuel fk fd x = float_repr x.
Proof.
  intros Hfk Hfd. unfold float_repr, float_repr_fuel. cbv zeta.
  unfold is_finite in Hfin. apply negb_true_iff in Hfin. rewrite Hfin.
  pose proof (float_exponent_range x) as He.
  pose proof (float_fraction_range x) as Hf.
  apply Z.eqb_neq in Hfin.
  destruct ((float_exponent x =? 0) && (float_fraction x =? 0)) eqn:Hz;
    [reflexivity|].
  rewrite (dtoa_finite_fuel (float_fraction x) (float_exponent x));
    try assumption; try lia.
  reflexivity.
Qed.

End Repr.

Lemma float_repr_fuel_enough (fk fd : nat) (x : float) :
  (400 <= fk)%nat -> (18 <= fd)%nat ->
  float_repr_fuel fk fd x = float_repr x.
Proof.
  intros Hfk Hfd. destruct (is_finite x) eqn:Hfin.
  - apply float_repr_fuel_enough_finite; assumption.
  - unfold float_repr, float_repr_fuel. cbv zeta.
    unfold is_finite in Hfin. apply negb_false_iff in Hfin. rewrite Hfin.
    reflexivity.
Qed.

(** ** The text of a point as a JSON text *)

Lemma number_first_char (c : ascii) :
  is_digit c = true \/ c = "-"%char ->
  is_ws c = false /\
  (c =? "]")%char = false /\ (c =? "{")%char = false /\
  (c =? "[")%char = false /\ (c =? "034")%char = false /\
  (c =? "t")%char = false /\ (c =? "f")%char = false /\
  (c =? "n")%char = false.
Proof.
  intros [H | ->]; [|repeat split; reflexivity].
  split.
  { unfold is_ws, is_digit in *. cbv zeta in *.
    set (k := N_of_ascii c) in *. clearbody k.
    apply andb_true_iff in H as [H1 H2].
    apply N.leb_le in H1. apply N.leb_le in H2.
    repeat (match goal with
            | |- context [(?a =? ?b)%N] => destruct (N.eqb_spec a b); [lia|]
            end).
    reflexivity. }
  repeat split; apply is_digit_neq; (assumption || reflexivity).
Qed.

(** A number as a value: [json_value] accepts it before a character that
    cannot continue it. *)
Lemma json_value_number (fuel : nat) (l rest : list ascii) :
  is_json_number l -> terminates rest ->
  json_value (S fuel) (l ++ rest) = Accept rest.
Proof.
  intros [(c & l' & -> & Hc) Hn] Hr.
  specialize (Hn rest Hr).
  destruct (number_first_char c Hc)
    as (Hws & _ & H1 & H2 & H3 & H4 & H5 & H6).
  cbn [json_value app skip_ws]. rewrite Hws, H1, H2, H3, H4, H5, H6.
  exact Hn.
Qed.

Lemma json_value_space (fuel : nat) (s : list ascii) :
  json_value fuel (" "%char :: s) = json_value fuel s.
Proof. destruct fuel; reflexivity. Qed.

Lemma json_elements_step (fuel : nat) (s : list ascii) :
  json_elements (S fuel) s
  = match json_value fuel s with
    | Accept r =>
        match skip_ws r with
        | c :: t =>
            if (c =? ",")%char then json_elements fuel t
            else if (c =? "]")%char then Accept t
            else Reject
        | [] => Reject
        end
    | r => r
    end.
Proof. reflexivity. Qed.

Lemma skip_ws_nonws (c : ascii) (t : list ascii) :
  is_ws c = false -> skip_ws (c :: t) = c :: t.
Proof. intros H. cbn [skip_ws]. rewrite H. reflexivity. Qed.

(** The elements of an array of two numbers separated by a comma and a
    space. *)
Lemma json_elements_pair (fuel : nat) (lx ly tail : list ascii) :
  is_json_number lx -> is_json_number ly ->
  json_elements (S (S (S (S fuel))))
    (lx ++ ","%char :: " "%char :: ly ++ "]"%char :: tail)
  = Accept tail.
Proof.
  intros Hx Hy.
  rewrite json_elements_step.
  rewrite (json_value_number _ lx _ Hx) by (repeat split).
  rewrite skip_ws_nonws by reflexivity.
  cbn [Ascii.eqb Bool.eqb andb].
  rewrite json_elements_step, json_value_space.
  rewrite (json_value_number _ ly _ Hy) by (repeat split).
  rewrite skip_ws_nonws by reflexivity.
  reflexivity.
Qed.

Lemma la_geojson_template (sx sy : string) :
  list_ascii_of_string (geojson_template sx sy)
  = (list_ascii_of_string ("{" ++ dquote ++ "type" ++ dquote ++ ": " ++ dquote ++ "Point"
           ++ dquote ++ "," ++ dquote ++ "coordinates" ++ dquote ++ ": [")
       ++ list_ascii_of_string sx
       ++ ","%char :: " "%char :: list_ascii_of_string sy
       ++ ["]"; "}"]%char)%list.
Proof.
  unfold geojson_template. rewrite !la_app. reflexivity.
Qed.

(** The parse of the object up to the elements of its array. *)
Lemma json_value_template_prefix (g : nat) (Y : list ascii) :
  json_value (S (S (S (S g))))
    (list_ascii_of_string ("{" ++ dquote ++ "type" ++ dquote ++ ": " ++ dquote ++ "Point"
           ++ dquote ++ "," ++ dquote ++ "coordinates" ++ dquote ++ ": [")
       ++ Y)
  = match
      match skip_ws Y with
      | [] => Reject
      | c :: u =>
          if (c =? "]")%char then Accept u else json_elements g (c :: u)
      end
    with
    | Accept r =>
        match skip_ws r with
        | [] => Reject
        | c :: v =>
            if (c =? ",")%char then json_members (S g) v
            else if (c =? "}")%char then Accept v
            else Reject
        end
    | r => r
    end.
Proof. cbn. reflexivity. Qed.

(** The text of a point whose coordinates are printed as numbers is a JSON
    text. *)
Lemma geojson_template_accepted (sx sy : string) :
  is_json_number (list_ascii_of_string sx) ->
  is_json_number (list_ascii_of_string sy) ->
  json_text (geojson_template sx sy) = Accept [].
Proof.
  intros Hx Hy. unfold json_text.
  assert (Hlen : exists f,
             (2 * String.length (geojson_template sx sy) + 2
              = S (S (S (S (S (S (S (S f))))))))%nat).
  { unfold geojson_template. cbn [String.length append dquote].
    eexists. cbn [Nat.mul Nat.add]. rewrite !Nat.add_succ_r.
    cbn [Nat.add]. reflexivity. }
  destruct Hlen as [f ->].
  rewrite la_geojson_template, json_value_template_prefix.
  pose proof (json_elements_pair f (list_ascii_of_string sx)
                (list_ascii_of_string sy) ["}"%char] Hx Hy) as Hel.
  destruct Hx as [(cx & lx' & Ex & Hcx) _].
  destruct (number_first_char cx Hcx) as (Hws & H0 & _).
  rewrite Ex in *. cbn [app] in Hel |- *.
  rewrite (skip_ws_nonws cx _ Hws). cbv beta iota.
  rewrite H0, Hel. reflexivity.
Qed.

(** The elements of an array whose first element is a number and whose
    second is printed as [nan], [inf] or [-inf]. *)
Lemma json_elements_second_rejected (fuel : nat) (lx : list ascii)
    (sy : string) (tail : list ascii) :
  is_json_number lx ->
  sy = "nan" \/ sy = "inf" \/ sy = "-inf" ->
  json_elements (S (S (S (S fuel))))
    (lx ++ ","%char :: " "%char :: list_ascii_of_string sy ++ tail)
  = Reject.
Proof.
  intros Hx Hy.
  rewrite json_elements_step.
  rewrite (json_value_number _ lx _ Hx) by (repeat split).
  rewrite skip_ws_nonws by reflexivity.
  cbn [Ascii.eqb Bool.eqb andb].
  rewrite json_elements_step, json_value_space.
  destruct Hy as [-> | [-> | ->]]; reflexivity.
Qed.

Lemma geojson_template_rejected_second (sx sy : string) :
  is_json_number (list_ascii_of_string sx) ->
  sy = "nan" \/ sy = "inf" \/ sy = "-inf" ->
  json_text (geojson_template sx sy) = Reject.
Proof.
  intros Hx Hy. unfold json_text.
  assert (Hlen : exists f,
             (2 * String.length (geojson_template sx sy) + 2
              = S (S (S (S (S (S (S (S f))))))))%nat).
  { unfold geojson_template. cbn [String.length append dquote].
    eexists. cbn [Nat.mul Nat.add]. rewrite !Nat.add_succ_r.
    cbn [Nat.add]. reflexivity. }
  destruct Hlen as [f ->].
  rewrite la_geojson_template, json_value_template_prefix.
  pose proof (json_elements_second_rejected f (list_ascii_of_string sx) sy ["]"; "}"]%char
                Hx Hy) as Hel.
  destruct Hx as [(cx & lx' & Ex & Hcx) _].
  destruct (number_first_char cx Hcx) as (Hws & H0 & _).
  rewrite Ex in *. cbn [app] in Hel |- *.
  rewrite (skip_ws_nonws cx _ Hws). cbv beta iota.
  rewrite H0, Hel. reflexivity.
Qed.

(** ** [Point.to_geojson] *)

Lemma to_geojson_template (a b : float) :
  to_geojson (mkPoint a b) = geojson_template (float_repr a) (float_repr b).
Proof. reflexivity. Qed.

Lemma float_repr_nonfinite (a : float) :
  is_finite a = false ->
  (is_nan a = true /\ float_repr a = "nan") \/
  (is_inf a = true /\ float_sign a = false /\ float_repr a = "inf") \/
  (is_inf a = true /\ float_sign a = true /\ float_repr a = "-inf").
Proof.
  unfold is_finite, is_nan, is_inf, float_repr, float_repr_fuel. intros H.
  apply negb_false_iff in H. rewrite H. cbn [andb].
  destruct (float_fraction a =? 0); cbn [negb].
  - right. destruct (float_sign a); [right|left]; repeat split.
  - left. split; reflexivity.
Qed.

(** The recogniser rejects the text of a point whose first coordinate is
    printed as [nan], [inf] or [-inf], whatever the second is. *)
Lemma geojson_template_rejected (sx sy : string) :
  sx = "nan" \/ sx = "inf" \/ sx = "-inf" ->
  json_text (geojson_template sx sy) = Reject.
Proof.
  intros [-> | [-> | ->]]; vm_compute; reflexivity.
Qed.

Lemma float_repr_number (a : float) :
  is_finite a = true -> is_json_number (list_ascii_of_string (float_repr a)).
Proof.
  intros H. apply number_shape_json.
  apply (float_repr_fuel_shape a H 400 20); [apply le_n|discriminate].
Qed.

Lemma float_repr_not_number (a : float) :
  is_finite a = false ->
  float_repr a = "nan" \/ float_repr a = "inf" \/ float_repr a = "-inf".
Proof.
  intros H.
  destruct (float_repr_nonfinite a H) as [[_ E]|[[_ [_ E]]|[_ [_ E]]]];
    rewrite E; auto.
Qed.

(** C6: [Point(1.0, -3.0).to_geojson()] is the text
    [{"type": "Point","coordinates": [1.0, -3.0]}].  For all coordinates the
    result is the fixed template, with no other member than [type] and
    [coordinates], around the text forms of x and of y in this order.  For
    finite coordinates the two text forms are JSON numbers and the result
    is a JSON text; the loops of the float formatting end within their
    bounds, so that a result is always produced. *)
Theorem to_geojson_spec :
  to_geojson (mkPoint f_1_0 f_m3_0)
    = "{" ++ dquote ++ "type" ++ dquote ++ ": " ++ dquote ++ "Point"
        ++ dquote ++ "," ++ dquote ++ "coordinates" ++ dquote
        ++ ": [1.0, -3.0]}" /\
  list_ascii_of_string (to_geojson (mkPoint f_1_0 f_m3_0))
    = map ascii_of_nat
        [123; 34; 116; 121; 112; 101; 34; 58; 32; 34; 80; 111; 105; 110;
         116; 34; 44; 34; 99; 111; 111; 114; 100; 105; 110; 97; 116; 101;
         115; 34; 58; 32; 91; 49; 46; 48; 44; 32; 45; 51; 46; 48; 93;
         125]%nat /\
  float_repr f_1_0 = "1.0" /\ float_repr f_m3_0 = "-3.0" /\
  (forall a b : float,
      to_geojson (mkPoint a b)
        = "{" ++ dquote ++ "type" ++ dquote ++ ": " ++ dquote ++ "Point"
            ++ dquote ++ "," ++ dquote ++ "coordinates" ++ dquote ++ ": ["
            ++ float_repr a ++ ", " ++ float_repr b ++ "]}") /\
  (forall a b : float,
      is_finite a = true -> is_finite b = true ->
      is_json_number (list_ascii_of_string (float_repr a)) /\
      is_json_number (list_ascii_of_string (float_repr b)) /\
      json_text (to_geojson (mkPoint a b)) = Accept []) /\
  (forall (fuel_k fuel_d : nat) (a : float),
      (400 <= fuel_k)%nat -> (18 <= fuel_d)%nat ->
      float_repr_fuel fuel_k fuel_d a = float_repr a).
Proof.
  split; [vm_compute; reflexivity|].
  split; [vm_compute; reflexivity|].
  split; [vm_compute; reflexivity|].
  split; [vm_compute; reflexivity|].
  split; [intros a b; reflexivity|].
  split.
  - intros a b Ha Hb.
    pose proof (float_repr_number a Ha) as Na.
    pose proof (float_repr_number b Hb) as Nb.
    split; [exact Na|]. split; [exact Nb|].
    rewrite to_geojson_template.
    apply geojson_template_accepted; assumption.
  - intros fk fd a Hk Hd. apply float_repr_fuel_enough; assumption.
Qed.

Lemma to_geojson_spec_witness :
  json_text (to_geojson (mkPoint f_30_0 f_20_0)) = Accept [] /\
  float_repr_fuel 1000 50 f_m3_0 = float_repr f_m3_0.
Proof.
  destruct to_geojson_spec as (_ & _ & _ & _ & _ & Hjson & Hfuel).
  split.
  - exact (proj2 (proj2 (Hjson f_30_0 f_20_0 eq_refl eq_refl))).
  - apply Hfuel; repeat constructor.
Defined.

(** C10: a coordinate that is not finite is not refused: its text form
    [nan], [inf] or [-inf] is put into the result as it is, so that
    [Point(nan, 1.0).to_geojson()] is
    [{"type": "Point","coordinates": [nan, 1.0]}], which is not a JSON
    text; no text with a coordinate that is not finite is one. *)
Theorem to_geojson_nonfinite :
  to_geojson (mkPoint f_nan f_1_0)
    = "{" ++ dquote ++ "type" ++ dquote ++ ": " ++ dquote ++ "Point"
        ++ dquote ++ "," ++ dquote ++ "coordinates" ++ dquote
        ++ ": [nan, 1.0]}" /\
  is_finite f_nan = false /\
  json_text (to_geojson (mkPoint f_nan f_1_0)) = Reject /\
  (forall a : float, is_nan a = true -> float_repr a = "nan") /\
  (forall a : float, is_inf a = true ->
      float_repr a = if float_sign a then "-inf" else "inf") /\
  (forall a b : float,
      is_finite a = false \/ is_finite b = false ->
      to_geojson (mkPoint a b)
        = geojson_template (float_repr a) (float_repr b) /\
      json_text (to_geojson (mkPoint a b)) = Reject).
Proof.
  split; [vm_compute; reflexivity|].
  split; [vm_compute; reflexivity|].
  split; [vm_compute; reflexivity|].
  split.
  { intros a H. unfold is_nan in H. apply andb_true_iff in H as [He Hf].
    unfold float_repr, float_repr_fuel. rewrite He.
    apply negb_true_iff in Hf. rewrite Hf. reflexivity. }
  split.
  { intros a H. unfold is_inf in H. apply andb_true_iff in H as [He Hf].
    unfold float_repr, float_repr_fuel. rewrite He, Hf. reflexivity. }
  intros a b H. split; [reflexivity|].
  rewrite to_geojson_template.
  destruct (is_finite a) eqn:Ha.
  - destruct H as [H|H]; [discriminate|].
    apply geojson_template_rejected_second.
    + apply float_repr_number, Ha.
    + apply float_repr_not_number, H.
  - apply geojson_template_rejected, float_repr_not_number, Ha.
Qed.

Lemma to_geojson_nonfinite_witness :
  json_text
    (to_geojson (mkPoint f_1_0 (Float 0xFFF0000000000000))) = Reject.
Proof.
  destruct to_geojson_nonfinite as (_ & _ & _ & _ & _ & H).
  exact (proj2 (H f_1_0 (Float 0xFFF0000000000000) (or_intror eq_refl))).
Defined.

(** ** Assignment to the fields of the value types *)

Lemma OsmID_init_valid (t : string) (i : Z) (c : option string) (o : OsmID) :
  OsmID_init t i c = Return o -> in_NWR (osm_type o) = true.
Proof.
  unfold OsmID_init, OsmID_post_init. cbn [osm_type].
  destruct (in_NWR t) eqn:E; cbn [negb bind]; [|discriminate].
  intros [= <-]. exact E.
Qed.

Lemma OsmID_setattr_update (o : OsmID) (a : OsmID_assign) :
  OsmID_setattr o a = Return (OsmID_update a o).
Proof. reflexivity. Qed.

Lemma OsmID_assigns_valid (l : list OsmID_assign) :
  forall o o',
    in_NWR (osm_type o) = true ->
    forallb keeps_osm_type l = true ->
    OsmID_assigns o l = Return o' ->
    in_NWR (osm_type o') = true.
Proof.
  induction l as [|a l IH]; intros o o' Ho Hl Hrun.
  - cbn in Hrun. injection Hrun as <-. exact Ho.
  - cbn [forallb] in Hl. apply andb_true_iff in Hl as [Ha Hl].
    cbn [OsmID_assigns] in Hrun. rewrite OsmID_setattr_update in Hrun.
    cbn [bind] in Hrun.
    apply (IH (OsmID_update a o) o'); [|exact Hl|exact Hrun].
    destruct a; cbn [OsmID_update osm_type keeps_osm_type] in *; assumption.
Qed.

(** C5, as the code has it: a [Point] and a [GeometryFormat] member refuse
    assignment; [PlaceID], [OsmID] and [LookupDetails] are dataclasses that
    are not frozen, so an assignment to a field succeeds and rebinds it
    without running [__post_init__] again.  An [OsmID] has one of the three
    codes when the constructor returns it, and keeps one as long as no
    assignment binds [osm_type] to another string. *)
Theorem value_types_assignment :
  (forall p u, exists msg, Point_setattr p u = Raise (AttributeError msg)) /\
  (forall g v, exists msg,
      GeometryFormat_setattr g v = Raise (AttributeError msg)) /\
  (forall p v, PlaceID_setattr p v = Return (mkPlaceID v)) /\
  (forall d u, LookupDetails_setattr d u = Return (u d)) /\
  (forall o a, OsmID_setattr o a = Return (OsmID_update a o)) /\
  (forall t i c o,
      OsmID_init t i c = Return o -> in_NWR (osm_type o) = true) /\
  (forall t i c o l o',
      OsmID_init t i c = Return o ->
      forallb keeps_osm_type l = true ->
      OsmID_assigns o l = Return o' ->
      in_NWR (osm_type o') = true).
Proof.
  split; [intros p u; eexists; reflexivity|].
  split; [intros g v; eexists; reflexivity|].
  split; [reflexivity|].
  split; [reflexivity|].
  split; [reflexivity|].
  split; [exact OsmID_init_valid|].
  intros t i c o l o' Hi Hl Hrun.
  apply (OsmID_assigns_valid l o o'); [|exact Hl|exact Hrun].
  exact (OsmID_init_valid t i c o Hi).
Qed.

Lemma value_types_assignment_witness :
  in_NWR (osm_type (mkOsmID "R" 7 (Some "boundary"))) = true.
Proof.
  destruct value_types_assignment as (_ & _ & _ & _ & _ & _ & H).
  exact (H "W" 1 None (mkOsmID "W" 1 None)
           [Set_osm_id 7; Set_osm_type "R"; Set_osm_class (Some "boundary")]
           (mkOsmID "R" 7 (Some "boundary")) eq_refl eq_refl eq_refl).
Defined.

(** C5, as the specification has it, fails: after [o = OsmID('N', 1)] the
    assignment [o.osm_type = 'X'] succeeds, and the object then holds a
    code that is none of the three. *)
Lemma OsmID_type_reassigned :
  ~ (forall o : OsmID, OsmID_reachable o -> in_NWR (osm_type o) = true).
Proof.
  intros H.
  assert (R : OsmID_reachable (mkOsmID "X" 1 None)).
  { apply (reach_setattr (mkOsmID "N" 1 None) (Set_osm_type "X")).
    - apply (reach_init "N" 1 None). reflexivity.
    - reflexivity. }
  specialize (H _ R). discriminate H.
Qed.

Lemma from_wkb_errors_witness :
  from_wkb (map byte.of_Z [1; 2; 3])
    = Raise (ValueError "Point wkb has unexpected length") /\
  exists d, wkb_check (map byte.of_Z [1; 2; 3]) = Some d.
Proof.
  destruct (from_wkb_errors (map byte.of_Z [1; 2; 3]))
    as (_ & Hall & Hlen & _).
  split.
  - apply Hlen. cbn. lia.
  - destruct (Hall (ValueError "Point wkb has unexpected length") eq_refl)
      as [d [Hd _]].
    exists d. exact Hd.
Defined.

(** * Further properties *)

(** ** The buffers that [Point.from_wkb] accepts *)

(** The bytes of an unsigned integer are determined by its value. *)
Lemma uint_of_bytes_inv (o : byteorder) (bs : list byte) :
  bytes_of_uint o (List.length bs) (uint_of_bytes o bs) = bs.
Proof.
  destruct o; cbn [bytes_of_uint uint_of_bytes].
  - rewrite <- (length_rev bs), split_le_combine. apply rev_involutive.
  - apply split_le_combine.
Qed.

Lemma wkb_layout (wkb : list byte) :
  List.length wkb = 25%nat ->
  wkb = (firstn 1 wkb ++ slice 1 5 wkb ++ slice 5 9 wkb
           ++ slice 9 17 wkb ++ slice 17 25 wkb)%list.
Proof.
  intros Hl.
  do 25 (destruct wkb as [|? wkb]; [discriminate|]).
  destruct wkb; [reflexivity|discriminate].
Qed.

Lemma wkb_byteorder_marker (wkb : list byte) (o : byteorder) :
  wkb_byteorder wkb = Some o ->
  firstn 1 wkb = [byte.of_Z (endian_marker o)].
Proof.
  destruct wkb as [|b0 rest]; [discriminate|].
  cbn [wkb_byteorder firstn].
  destruct (Z.eqb_spec (byte.unsigned b0) 0) as [E|_].
  - intros [= <-]. cbn [endian_marker]. rewrite <- E, byte.of_Z_unsigned.
    reflexivity.
  - destruct (Z.eqb_spec (byte.unsigned b0) 1) as [E|_]; [|discriminate].
    intros [= <-]. cbn [endian_marker]. rewrite <- E, byte.of_Z_unsigned.
    reflexivity.
Qed.

Lemma from_wkb_inversion (wkb : list byte) (p : Point) :
  from_wkb wkb = Return p ->
  List.length wkb = 25%nat /\
  exists o, wkb_byteorder wkb = Some o /\
            wkb_gtype o wkb = 0x20000001 /\ wkb_srid o wkb = 4326 /\
            p = mkPoint (wkb_x o wkb) (wkb_y o wkb).
Proof.
  intros H. pose proof (from_wkb_check wkb) as Hc.
  unfold wkb_check in Hc.
  destruct (Nat.eqb_spec (List.length wkb) 25) as [Hl|Hl]; cbn [negb] in Hc;
    [|congruence].
  split; [exact Hl|].
  destruct (wkb_byteorder wkb) as [o|]; [|congruence].
  destruct (Z.eqb_spec (wkb_gtype o wkb) 0x20000001) as [Hg|Hg];
    cbn [negb] in Hc; [|congruence].
  destruct (Z.eqb_spec (wkb_srid o wkb) 4326) as [Hs|Hs];
    cbn [negb] in Hc; [|congruence].
  destruct Hc as (o' & [= <-] & Hc).
  exists o. repeat split; try assumption. congruence.
Qed.

(** An accepted buffer is the encoding of the point it decodes to. *)
Lemma from_wkb_canonical (wkb : list byte) (p : Point) :
  from_wkb wkb = Return p ->
  exists o, wkb_byteorder wkb = Some o /\
            wkb = ewkb_point o 0x20000001 4326 (x p) (y p).
Proof.
  intros H. destruct (from_wkb_inversion wkb p H)
    as (Hl & o & Ho & Hg & Hs & ->).
  exists o. split; [exact Ho|].
  rewrite (wkb_layout wkb Hl) at 1.
  rewrite (wkb_byteorder_marker wkb o Ho).
  unfold ewkb_point. cbn [app x y wkb_x wkb_y float_bits].
  f_equal.
  rewrite <- Hg, <- Hs. unfold wkb_gtype, wkb_srid.
  assert (L : forall i j, (j <= 25)%nat ->
                List.length (slice i j wkb) = (j - i)%nat).
  { intros i j Hj. apply length_slice. lia. }
  rewrite <- (uint_of_bytes_inv o (slice 1 5 wkb)) at 1.
  rewrite <- (uint_of_bytes_inv o (slice 5 9 wkb)) at 1.
  rewrite <- (uint_of_bytes_inv o (slice 9 17 wkb)) at 1.
  rewrite <- (uint_of_bytes_inv o (slice 17 25 wkb)) at 1.
  rewrite !L by lia. reflexivity.
Qed.

Lemma ewkb_point_header (o : byteorder) (a b : float) :
  firstn 9 (ewkb_point o 0x20000001 4326 a b)
  = match o with BigEndian => be_header | LittleEndian => le_header end.
Proof. destruct o; reflexivity. Qed.

(** X1: [from_wkb] returns a point exactly for the buffers of 25 bytes
    whose first nine bytes are one of the two fixed headers: nothing in the
    sixteen bytes of the coordinates is checked. *)
Theorem from_wkb_accepts_header (wkb : list byte) :
  (exists p, from_wkb wkb = Return p) <->
  List.length wkb = 25%nat /\
  (firstn 9 wkb = be_header \/ firstn 9 wkb = le_header).
Proof.
  split.
  - intros [p H]. split; [apply (from_wkb_inversion wkb p H)|].
    destruct (from_wkb_canonical wkb p H) as (o & _ & ->).
    rewrite ewkb_point_header. destruct o; auto.
  - intros [Hl Hh].
    do 25 (destruct wkb as [|? wkb]; [discriminate|]).
    destruct wkb; [|discriminate]. clear Hl.
    cbn [firstn] in Hh.
    destruct Hh as [Hh|Hh]; injection Hh as -> -> -> -> -> -> -> -> ->;
      eexists.
    + apply (from_wkb_well_formed _ BigEndian); reflexivity.
    + apply (from_wkb_well_formed _ LittleEndian); reflexivity.
Qed.




(** X3: an accepted buffer is accepted under its own marker only: with
    any other first byte the call raises, "WKB must be a point geometry."
    for the marker of the other byte order and "WKB has unknown endian
    value." for every other byte. *)
Theorem from_wkb_marker_matters (b0 b0' : byte) (rest : list byte)
    (p : Point) :
  from_wkb (b0 :: rest) = Return p -> b0' <> b0 ->
  from_wkb (b0' :: rest)
  = Raise (ValueError
             (if (byte.unsigned b0' =? 0) || (byte.unsigned b0' =? 1)
              then "WKB must be a point geometry."
              else "WKB has unknown endian value.")).
Proof.
  intros H Hne.
  destruct (from_wkb_canonical _ p H) as (o & Ho & E).
  unfold ewkb_point in E. injection E as E0 Er.
  assert (Hb : byte.unsigned b0 = endian_marker o).
  { rewrite E0. destruct o; reflexivity. }
  assert (Hb' : byte.unsigned b0' <> endian_marker o).
  { intros E'. apply Hne. apply byte.unsigned_inj. congruence. }
  assert (Hl : List.length (b0' :: rest) = 25%nat).
  { apply from_wkb_inversion in H as [Hl _]. exact Hl. }
  destruct (Z.eqb_spec (byte.unsigned b0') 0) as [Z0|Z0]; cbn [orb].
  - apply (wkb_check_defect _ NotAPoint), wkb_check_gtype.
    split; [exact Hl|]. exists BigEndian.
    split; [cbn [wkb_byteorder]; rewrite Z0; reflexivity|].
    destruct o; [cbn in Hb'; congruence|].
    subst rest. vm_compute. discriminate.
  - destruct (Z.eqb_spec (byte.unsigned b0') 1) as [Z1|Z1].
    + apply (wkb_check_defect _ NotAPoint), wkb_check_gtype.
      split; [exact Hl|]. exists LittleEndian.
      split.
      { cbn [wkb_byteorder]. rewrite Z1.
        destruct (Z.eqb_spec 1 0); [lia|reflexivity]. }
      destruct o; [|cbn in Hb'; congruence].
      subst rest. vm_compute. discriminate.
    + apply (wkb_check_defect _ UnknownEndian), wkb_check_endian.
      split; [exact Hl|]. cbn [wkb_byteorder].
      destruct (Z.eqb_spec (byte.unsigned b0') 0); [lia|].
      destruct (Z.eqb_spec (byte.unsigned b0') 1); [lia|reflexivity].
Qed.

Lemma from_wkb_marker_matters_witness :
  from_wkb (byte.of_Z 0
              :: tl (ewkb_point LittleEndian 0x20000001 4326 f_1_0 f_m3_0))
  = Raise (ValueError "WKB must be a point geometry.").
Proof.
  apply (from_wkb_marker_matters (byte.of_Z 1) (byte.of_Z 0) _
           (mkPoint f_1_0 f_m3_0)).
  - vm_compute. reflexivity.
  - discriminate.
Defined.

(** X4: the points that [from_wkb] can return are exactly those of two
    64-bit patterns: every pair of doubles, NaN and the infinities
    included, is the result of some buffer. *)
Theorem from_wkb_image (p : Point) :
  (exists wkb, from_wkb wkb = Return p) <->
  0 <= float_bits (x p) < 2 ^ 64 /\ 0 <= float_bits (y p) < 2 ^ 64.
Proof.
  split.
  - intros [wkb H].
    destruct (from_wkb_inversion wkb p H) as (Hl & o & _ & _ & _ & ->).
    cbn [x y wkb_x wkb_y float_bits].
    pose proof (uint_of_bytes_bound o (slice 9 17 wkb)) as Hx.
    pose proof (uint_of_bytes_bound o (slice 17 25 wkb)) as Hy.
    rewrite length_slice in Hx, Hy by lia. split; assumption.
  - intros [Hx Hy]. exists (ewkb_point BigEndian 0x20000001 4326 (x p) (y p)).
    rewrite from_wkb_ewkb_point by assumption. destruct p; reflexivity.
Qed.

(** X5: [from_wkb] and the encoder of the layout are inverse: a buffer
    decodes to a point exactly when it is the encoding of that point, with
    type 0x20000001 and SRID 4326, in one of the two byte orders. *)
Theorem from_wkb_ewkb_inverse (wkb : list byte) (p : Point) :
  from_wkb wkb = Return p <->
  (exists o, wkb = ewkb_point o 0x20000001 4326 (x p) (y p)) /\
  0 <= float_bits (x p) < 2 ^ 64 /\ 0 <= float_bits (y p) < 2 ^ 64.
Proof.
  split.
  - intros H. split.
    + destruct (from_wkb_canonical wkb p H) as (o & _ & E). eauto.
    + destruct (from_wkb_inversion wkb p H) as (Hl & o & _ & _ & _ & ->).
      cbn [x y wkb_x wkb_y float_bits].
      pose proof (uint_of_bytes_bound o (slice 9 17 wkb)) as Hx.
      pose proof (uint_of_bytes_bound o (slice 17 25 wkb)) as Hy.
      rewrite length_slice in Hx, Hy by lia. split; assumption.
  - intros [[o ->] [Hx Hy]].
    rewrite from_wkb_ewkb_point by assumption. destruct p; reflexivity.
Qed.

(** ** The text of a point *)

(** X6: the text of a point is a JSON text exactly when both coordinates
    are finite, and the recogniser decides it within its fuel. *)
Theorem to_geojson_json_verdict (p : Point) :
  json_text (to_geojson p)
  = if is_finite (x p) && is_finite (y p) then Accept [] else Reject.
Proof.
  destruct p as [a b]. cbn [x y]. rewrite to_geojson_template.
  destruct (is_finite a) eqn:Ha; cbn [andb].
  - destruct (is_finite b) eqn:Hb.
    + apply geojson_template_accepted; apply float_repr_number; assumption.
    + apply geojson_template_rejected_second.
      * apply float_repr_number, Ha.
      * apply float_repr_not_number, Hb.
  - apply geojson_template_rejected, float_repr_not_number, Ha.
Qed.

Lemma float_repr_signed (a : float) :
  is_finite a = true ->
  signed_number_shape (float_sign a) (list_ascii_of_string (float_repr a)).
Proof.
  intros Hfin. unfold float_repr, float_repr_fuel. cbv zeta.
  unfold is_finite in Hfin. apply negb_true_iff in Hfin. rewrite Hfin.
  pose proof (float_exponent_range a) as He.
  pose proof (float_fraction_range a) as Hf.
  apply Z.eqb_neq in Hfin.
  destruct ((float_exponent a =? 0) && (float_fraction a =? 0)) eqn:Hz.
  - apply format_float_short_signed; [unfold is_dig; lia|constructor|auto].
  - destruct (dtoa_finite _ _ _ _) as [digits decpt] eqn:Hd.
    apply dtoa_finite_digits in Hd as (d0 & rest & -> & Hd0 & Hrest);
      try assumption; try lia.
    apply format_float_short_signed; [unfold is_dig; lia|exact Hrest|lia].
Qed.

(** X7: the text of a coordinate starts with a minus sign exactly when the
    sign bit of the double is set, negative zero and negative infinity
    included; only NaN is printed without its sign. *)
Theorem float_repr_minus (a : float) :
  is_nan a = false ->
  ((exists t, float_repr a = String "-" t) <-> float_sign a = true).
Proof.
  intros Hnan. destruct (is_finite a) eqn:Hfin.
  - destruct (float_repr_signed a Hfin)
      as (c & cs & t & E & Hc & _ & _ & _).
    apply (f_equal string_of_list_ascii) in E.
    rewrite string_of_list_ascii_of_string in E. rewrite E.
    destruct (float_sign a); cbn [sign_chars app string_of_list_ascii].
    + split; [reflexivity|]. intros _. eexists. reflexivity.
    + split; [|discriminate]. intros [t' [= -> _]]. discriminate.
  - destruct (float_repr_nonfinite a Hfin)
      as [[E _]|[(_ & Hs & E)|(_ & Hs & E)]].
    + congruence.
    + rewrite E, Hs. split; [intros [t' H]; discriminate|discriminate].
    + rewrite E, Hs. split; [reflexivity|]. intros _. eexists. reflexivity.
Qed.

Lemma float_repr_minus_witness :
  exists t, float_repr (Float 0x8000000000000000) = String "-" t.
Proof.
  apply (float_repr_minus (Float 0x8000000000000000)); reflexivity.
Defined.

(** ** The flags of [GeometryFormat] *)

Lemma land_pow2 (v k : Z) :
  0 <= k -> Z.land v (2 ^ k) = if Z.testbit v k then 2 ^ k else 0.
Proof.
  intros Hk. apply Z.bits_inj'. intros n Hn.
  rewrite Z.land_spec, Z.pow2_bits_eqb by exact Hk.
  destruct (Z.eqb_spec k n) as [->|Hne].
  - destruct (Z.testbit v n); [|rewrite Z.bits_0; reflexivity].
    rewrite Z.pow2_bits_true by exact Hn. reflexivity.
  - rewrite andb_false_r.
    destruct (Z.testbit v k);
      [rewrite Z.pow2_bits_false by exact Hne|rewrite Z.bits_0]; reflexivity.
Qed.

Lemma testbit_above (v k : Z) : 0 <= v < 2 ^ k -> Z.testbit v k = false.
Proof.
  intros Hv. destruct (Z.eq_dec v 0) as [->|Hne]; [apply Z.bits_0|].
  apply Z.bits_above_log2; [lia|]. apply Z.log2_lt_pow2; lia.
Qed.

Lemma fold_max_bound (l : list Z) :
  0 <= fold_right Z.max 0 l /\ Forall (fun v => v <= fold_right Z.max 0 l) l.
Proof.
  induction l as [|v l [IH0 IH]]; cbn [fold_right].
  - split; [lia|constructor].
  - split; [lia|]. constructor; [lia|].
    eapply Forall_impl; [|exact IH]. cbn. intros; lia.
Qed.

Lemma bit_length_spec (m : Z) : 0 <= m -> 0 <= bit_length m /\ m < 2 ^ bit_length m.
Proof.
  intros Hm. unfold bit_length. destruct (Z.eqb_spec m 0) as [->|Hne].
  - split; [lia|reflexivity].
  - pose proof (Z.log2_nonneg m). split; [lia|].
    apply Z.log2_spec. lia.
Qed.

(** X8: [enum.auto()] gives a flag a power of two above all the values
    defined before it, so that it shares no bit with any of them. *)
Theorem flag_auto_fresh (last_values : list Z) :
  Forall (fun v => 0 <= v) last_values ->
  (exists k, 0 <= k /\ flag_auto last_values = 2 ^ k) /\
  Forall (fun v => v < flag_auto last_values
                   /\ Z.land v (flag_auto last_values) = 0) last_values.
Proof.
  intros Hpos. unfold flag_auto.
  destruct (fold_max_bound last_values) as [H0 Hmax].
  destruct (bit_length_spec _ H0) as [Hk Hlt].
  set (k := bit_length (fold_right Z.max 0 last_values)) in *.
  split; [exists k; split; [exact Hk|reflexivity]|].
  rewrite Forall_forall in *. intros v Hv.
  specialize (Hpos v Hv). specialize (Hmax v Hv). cbn beta in *.
  split; [lia|].
  rewrite land_pow2 by exact Hk. rewrite testbit_above by lia. reflexivity.
Qed.

Lemma flag_auto_fresh_witness :
  Forall (fun v => v < 8 /\ Z.land v 8 = 0) [0; 1; 2; 4].
Proof.
  apply (flag_auto_fresh [0; 1; 2; 4]). repeat constructor; lia.
Defined.

Lemma flag_contains_spec (b a : GeometryFormat) :
  flag_contains b a = true <->
  forall n, 0 <= n ->
    Z.testbit (flag_value a) n = true -> Z.testbit (flag_value b) n = true.
Proof.
  unfold flag_contains. rewrite Z.eqb_eq. split.
  - intros H n Hn Ha. rewrite <- H, Z.land_spec in Ha.
    apply andb_true_iff in Ha. apply Ha.
  - intros H. apply Z.bits_inj'. intros n Hn. rewrite Z.land_spec.
    destruct (Z.testbit (flag_value a) n) eqn:E; [|reflexivity].
    rewrite (H n Hn E). reflexivity.
Qed.

Lemma flag_eq (a b : GeometryFormat) : flag_value a = flag_value b -> a = b.
Proof. destruct a, b; cbn; congruence. Qed.

Lemma flag_or_spec (a b : GeometryFormat) (n : Z) :
  Z.testbit (flag_value (flag_or a b)) n
  = Z.testbit (flag_value a) n || Z.testbit (flag_value b) n.
Proof. apply Z.lor_spec. Qed.

Lemma flag_eq_bits (a b : GeometryFormat) :
  (forall n, 0 <= n ->
     Z.testbit (flag_value a) n = Z.testbit (flag_value b) n) ->
  a = b.
Proof. intros H. apply flag_eq, Z.bits_inj'. exact H. Qed.

(** X9: [a in b] is a partial order on flags, with [NONE] below every
    flag, and [a in b] holds exactly when [a | b] is [b]. *)
Theorem flag_contains_order :
  (forall a, flag_contains a a = true) /\
  (forall a b c, flag_contains b a = true -> flag_contains c b = true ->
                 flag_contains c a = true) /\
  (forall a b, flag_contains b a = true -> flag_contains a b = true ->
               a = b) /\
  (forall a, flag_contains a GeometryFormat.NONE = true) /\
  (forall a b, flag_contains b a = true <-> flag_or a b = b).
Proof.
  split.
  { intros a. unfold flag_contains. rewrite Z.land_diag. apply Z.eqb_refl. }
  split.
  { intros a b c Hab Hbc. rewrite flag_contains_spec in *. auto. }
  split.
  { intros a b Hab Hba. rewrite flag_contains_spec in *.
    apply flag_eq_bits. intros n Hn.
    specialize (Hab n Hn). specialize (Hba n Hn).
    destruct (Z.testbit (flag_value a) n), (Z.testbit (flag_value b) n);
      auto; symmetry; auto. }
  split; [intros a; reflexivity|].
  intros a b. rewrite flag_contains_spec. split.
  - intros H. apply flag_eq_bits. intros n Hn. rewrite flag_or_spec.
    specialize (H n Hn).
    destruct (Z.testbit (flag_value a) n); [cbn; symmetry; auto|reflexivity].
  - intros E n Hn Ha. rewrite <- E, flag_or_spec, Ha. reflexivity.
Qed.

Lemma flag_contains_order_witness :
  flag_contains
    (flag_or GeometryFormat.SVG
       (flag_or GeometryFormat.KML GeometryFormat.TEXT))
    GeometryFormat.KML = true.
Proof.
  destruct flag_contains_order as (_ & Htrans & _ & _ & _).
  apply (Htrans _ (flag_or GeometryFormat.KML GeometryFormat.TEXT));
    reflexivity.
Defined.

Lemma flag_contains_bit (g : GeometryFormat) (k : Z) :
  0 <= k ->
  flag_contains g (mkGeometryFormat (2 ^ k)) = Z.testbit (flag_value g) k.
Proof.
  intros Hk. unfold flag_contains. cbn [flag_value].
  rewrite Z.land_comm, land_pow2 by exact Hk.
  assert (0 < 2 ^ k) by (apply Z.pow_pos_nonneg; lia).
  destruct (Z.testbit (flag_value g) k).
  - apply Z.eqb_refl.
  - apply Z.eqb_neq. lia.
Qed.

Lemma flag_members_bits (m : GeometryFormat) :
  In m flag_members ->
  exists k, 0 <= k < 4 /\ m = mkGeometryFormat (2 ^ k).
Proof.
  intros [<-|[<-|[<-|[<-|[]]]]];
    [exists 0|exists 1|exists 2|exists 3]; split; (lia || reflexivity).
Qed.

(** X10: a union is contained in [c] exactly when both parts are; a named
    format is in a union exactly when it is in one of the parts; two
    different named formats share no bit and neither contains the other. *)
Theorem flag_union_membership :
  (forall a b c,
      flag_contains c (flag_or a b)
      = flag_contains c a && flag_contains c b) /\
  (forall m a b,
      In m flag_members ->
      flag_contains (flag_or a b) m
      = flag_contains a m || flag_contains b m) /\
  (forall m m',
      In m flag_members -> In m' flag_members -> m <> m' ->
      flag_contains m m' = false /\
      Z.land (flag_value m) (flag_value m') = 0).
Proof.
  split.
  { intros a b c. apply eq_iff_eq_true.
    rewrite andb_true_iff, !flag_contains_spec. split.
    - intros H. split; intros n Hn Hx; apply (H n Hn);
        rewrite flag_or_spec, Hx; [reflexivity|apply orb_true_r].
    - intros [Ha Hb] n Hn Hx. rewrite flag_or_spec in Hx.
      apply orb_true_iff in Hx as [Hx|Hx]; auto. }
  split.
  { intros m a b Hm. destruct (flag_members_bits m Hm) as (k & Hk & ->).
    rewrite !flag_contains_bit by lia. apply flag_or_spec. }
  intros m m' Hm Hm' Hne.
  destruct Hm as [<-|[<-|[<-|[<-|[]]]]];
    destruct Hm' as [<-|[<-|[<-|[<-|[]]]]];
    try (exfalso; apply Hne; reflexivity); split; reflexivity.
Qed.

Lemma flag_union_membership_witness :
  flag_contains (flag_or GeometryFormat.GEOJSON GeometryFormat.TEXT)
    GeometryFormat.KML = false.
Proof.
  destruct flag_union_membership as (_ & H & _).
  rewrite (H GeometryFormat.KML); [reflexivity|].
  right; left; reflexivity.
Defined.




(** ** The objects of [OsmID] *)

(** X12: every [OsmID] value, whatever its fields, is reachable by the
    constructor followed by assignments: the check of [__post_init__]
    constrains the arguments of the constructor and nothing else. *)
Theorem OsmID_all_reachable (o : OsmID) : OsmID_reachable o.
Proof.
  destruct o as [t i c].
  apply (reach_setattr (mkOsmID "N" i c) (Set_osm_type t)); [|reflexivity].
  apply (reach_init "N" i c). reflexivity.
Qed.

Lemma length_append (s t : string) :
  String.length (s ++ t) = (String.length s + String.length t)%nat.
Proof. induction s as [|c s IH]; cbn; [reflexivity|now rewrite IH]. Qed.

Lemma append_inj_r (s1 s2 t : string) : s1 ++ t = s2 ++ t -> s1 = s2.
Proof.
  revert s2. induction s1 as [|c s1 IH]; intros s2 H.
  - destruct s2 as [|c2 s2]; [reflexivity|].
    apply (f_equal String.length) in H.
    cbn [append String.length] in H. rewrite length_append in H. lia.
  - destruct s2 as [|c2 s2].
    + apply (f_equal String.length) in H.
      cbn [append String.length] in H. rewrite length_append in H. lia.
    + cbn [append] in H. injection H as -> H. f_equal. auto.
Qed.

(** X13: the error of the constructor determines the refused type: two
    calls that raise the same exception were given the same [osm_type]. *)
Theorem OsmID_error_names_value (s1 s2 : string) (i1 i2 : Z)
    (c1 c2 : option string) (e : exn) :
  OsmID_init s1 i1 c1 = Raise e -> OsmID_init s2 i2 c2 = Raise e -> s1 = s2.
Proof.
  unfold OsmID_init, OsmID_post_init. cbn [osm_type].
  destruct (in_NWR s1); cbn [negb bind]; [discriminate|].
  destruct (in_NWR s2); cbn [negb bind]; [discriminate|].
  intros [= <-] [= H].
  apply append_inj_r in H. congruence.
Qed.

Lemma OsmID_error_names_value_witness : "n" = "n".
Proof.
  apply (OsmID_error_names_value "n" "n" 1 2 None (Some "highway")
           (ValueError "Illegal OSM type 'n'. Must be one of N, W, R."));
    reflexivity.
Defined.

(** ** The digits of a coordinate *)












Section InitInterval.

Variables f be : Z.
Hypothesis Hf : 0 <= f < 2 ^ 52.
Hypothesis Hbe : 0 <= be < 2047.
Hypothesis Hnz : be = 0 -> f <> 0.


End InitInterval.






Section DigitsInterval.

Variables f be : Z.
Hypothesis Hf : 0 <= f < 2 ^ 52.
Hypothesis Hbe : 0 <= be < 2047.
Hypothesis Hnz : be = 0 -> f <> 0.


End DigitsInterval.




Section IntervalQ.

Variables f be : Z.
Hypothesis Hf : 0 <= f < 2 ^ 52.
Hypothesis Hbe : 0 <= be < 2047.
Hypothesis Hnz : be = 0 -> f <> 0.



End IntervalQ.





